(** * MelX Academic: the grade arithmetic and the AI service glue

    A shallow embedding of the non-presentational code of the dashboard:
    - [constants.ts]: the two grade scales and [getPoint];
    - [App.tsx]: [calculateSemesterGPA], the [cgpa] and [chartData]
      aggregates and the handlers that update the list of semesters;
    - [components/CourseList.tsx]: the course editing handlers;
    - [services/geminiService.ts]: the three calls to the AI service.

    JavaScript numbers are IEEE doubles.  The arithmetic the code uses is
    kept behind the interface [JsNumber], with two implementations: [exact],
    by rationals, and [double], by binary64 numbers.  Every definition is
    written over the interface, and the results are proved for every
    implementation of it, [double] included; [exact] carries the sample
    data the results are instantiated at.

    Strings are sequences of bytes, a character outside ASCII being the
    bytes of its UTF-8 encoding.

    The content of the requests sent to the AI service (model, prompt,
    response schema) is left out: building it cannot fail, and the reply is
    an arbitrary function of the request count, so that every result holds
    whatever the service answers. *)

From Stdlib Require Import List String Ascii Bool Arith ZArith QArith Qround Qabs Lia.
From Stdlib Require Import DecimalString DecimalNat SpecFloat.
Import ListNotations.

Set Implicit Arguments.

(** ** Numbers *)

(** The operations on numbers that the program uses.  [lit q] is the number
    a numeral of value [q] denotes, [eq0 x] is [x === 0], [truthy x] is the
    test [x || ...] performs, and [toFixed2 x] is
    [parseFloat(x.toFixed(2))].  The three laws are the only facts about
    numbers the structural results need; they hold of doubles. *)
Class JsNumber : Type := {
  num : Type;
  lit : Q -> num;
  add : num -> num -> num;
  mul : num -> num -> num;
  div : num -> num -> num;
  eq0 : num -> bool;
  truthy : num -> bool;
  toFixed2 : num -> num;
  eq0_lit0 : eq0 (lit 0) = true;
  truthy_lit0 : truthy (lit 0) = false;
  toFixed2_lit0 : toFixed2 (lit 0) = lit 0
}.

Declare Scope js_scope.
Delimit Scope js_scope with js.
Infix "+" := add : js_scope.
Infix "*" := mul : js_scope.
Infix "/" := div : js_scope.

(** [x.toFixed(2)] on an exact rational: the sign is split off, the
    magnitude is rounded to the nearest hundredth, the larger one on a tie;
    [parseFloat] reads the numeral back. *)
Definition Q_toFixed2 (x : Q) : Q :=
  let n := Qfloor (Qabs x * 100 + (1 # 2)) in
  Qred ((if Qle_bool 0 x then n else (- n)%Z) # 100).

Definition Q_eq0 (x : Q) : bool := Qeq_bool x 0.

#[export] Instance exact : JsNumber := {|
  num := Q;
  lit := fun q => q;
  add := Qplus;
  mul := Qmult;
  div := Qdiv;
  eq0 := Q_eq0;
  truthy := fun x => negb (Q_eq0 x);
  toFixed2 := Q_toFixed2;
  eq0_lit0 := eq_refl;
  truthy_lit0 := eq_refl;
  toFixed2_lit0 := eq_refl
|}.

(** Binary64 numbers, as [SpecFloat] specifies them. *)
Definition double_of_Z (z : Z) : spec_float := binary_normalize 53 1024 z 0 false.

(** The double nearest to a numeral of value [q]; exact when numerator and
    denominator are below 2^53, as they are for every numeral of the
    program. *)
Definition double_lit (q : Q) : spec_float :=
  SFdiv 53 1024 (double_of_Z (Qnum q)) (double_of_Z (Zpos (Qden q))).

Definition double_eq0 (x : spec_float) : bool := SFeqb x (S754_zero false).

Definition double_truthy (x : spec_float) : bool :=
  match x with
  | S754_zero _ | S754_nan => false
  | _ => true
  end.

(** [parseFloat(x.toFixed(2))] on a double.  [n] is the magnitude of [x] in
    hundredths, rounded half up on its exact value; the numeral [n / 100] is
    read back as the nearest double.  From 2^53 hundredths on, [x] is that
    nearest double. *)
Definition double_toFixed2 (x : spec_float) : spec_float :=
  match x with
  | S754_zero _ => S754_zero false
  | S754_infinity _ | S754_nan => x
  | S754_finite s m e =>
      let n :=
        if (0 <=? e)%Z then (100 * Zpos m * 2 ^ e)%Z
        else ((200 * Zpos m + 2 ^ (- e)) / 2 ^ (- e + 1))%Z in
      if (2 ^ 53 <=? n)%Z then x
      else
        let r := SFdiv 53 1024 (double_of_Z n) (double_of_Z 100) in
        if s then SFopp r else r
  end.

(** The rational a finite double is; 0 stands for the others. *)
Definition double_value (x : spec_float) : Q :=
  match x with
  | S754_finite s m e =>
      let magnitude :=
        if (0 <=? e)%Z then inject_Z (Zpos m * 2 ^ e) else Zpos m # Z.to_pos (2 ^ (- e)) in
      if s then - magnitude else magnitude
  | _ => 0
  end.

Definition double : JsNumber := {|
  num := spec_float;
  lit := double_lit;
  add := SFadd 53 1024;
  mul := SFmul 53 1024;
  div := SFdiv 53 1024;
  eq0 := double_eq0;
  truthy := double_truthy;
  toFixed2 := double_toFixed2;
  eq0_lit0 := eq_refl;
  truthy_lit0 := eq_refl;
  toFixed2_lit0 := eq_refl
|}.

(** ** types.ts *)

Inductive CalculationMode : Type := Standard4 | Standard5.

Definition CalculationMode_eqb (a b : CalculationMode) : bool :=
  match a, b with
  | Standard4, Standard4 | Standard5, Standard5 => true
  | _, _ => false
  end.

Section Program.

Context {N : JsNumber}.
Local Open Scope js_scope.
Local Open Scope string_scope.

Record Course : Type := {
  c_id : string;
  c_code : string;
  c_title : string;
  c_credits : num;
  c_grade : string
}.

Record Semester : Type := {
  s_id : string;
  s_name : string;
  s_courses : list Course;
  s_gpa : num
}.

Record GradeScaleItem : Type := {
  g_grade : string;
  g_point : num
}.

(** ** constants.ts *)

Definition SCALE_4_0 : list GradeScaleItem :=
  [ {| g_grade := "A";  g_point := lit 4 |};
    {| g_grade := "A-"; g_point := lit (37 # 10) |};
    {| g_grade := "B+"; g_point := lit (33 # 10) |};
    {| g_grade := "B";  g_point := lit 3 |};
    {| g_grade := "B-"; g_point := lit (27 # 10) |};
    {| g_grade := "C+"; g_point := lit (23 # 10) |};
    {| g_grade := "C";  g_point := lit 2 |};
    {| g_grade := "C-"; g_point := lit (17 # 10) |};
    {| g_grade := "D+"; g_point := lit (13 # 10) |};
    {| g_grade := "D";  g_point := lit 1 |};
    {| g_grade := "F";  g_point := lit 0 |} ].

Definition SCALE_5_0 : list GradeScaleItem :=
  [ {| g_grade := "A"; g_point := lit 5 |};
    {| g_grade := "B"; g_point := lit 4 |};
    {| g_grade := "C"; g_point := lit 3 |};
    {| g_grade := "D"; g_point := lit 2 |};
    {| g_grade := "E"; g_point := lit 1 |};
    {| g_grade := "F"; g_point := lit 0 |} ].

(** The scale a mode selects: [mode === Standard5 ? SCALE_5_0 : SCALE_4_0]. *)
Definition scaleOf (mode : CalculationMode) : list GradeScaleItem :=
  if CalculationMode_eqb mode Standard5 then SCALE_5_0 else SCALE_4_0.

Definition getPoint (grade : string) (mode : CalculationMode) : num :=
  let scale := scaleOf mode in
  match find (fun s => String.eqb (g_grade s) grade) scale with
  | Some item => g_point item
  | None => lit 0
  end.

(** ** App.tsx: the derived values *)

Definition calculateSemesterGPA (mode : CalculationMode) (courses : list Course) : num :=
  if Nat.eqb (List.length courses) 0 then lit 0
  else
    let totalPoints :=
      fold_left (fun sum c => sum + getPoint (c_grade c) mode * c_credits c) courses (lit 0) in
    let totalCredits :=
      fold_left (fun sum c => sum + c_credits c) courses (lit 0) in
    if eq0 totalCredits then lit 0 else toFixed2 (totalPoints / totalCredits).

(** The body of the inner [forEach] of [cgpa] and of [chartData]: one course
    is added to the two running totals. *)
Definition accumulate (mode : CalculationMode) (acc : num * num) (c : Course) : num * num :=
  let '(points, credits) := acc in
  (points + getPoint (c_grade c) mode * c_credits c, credits + c_credits c).

(** The two totals [cgpa] holds when its loops are over. *)
Definition cgpa_totals (semesters : list Semester) (mode : CalculationMode) : num * num :=
  fold_left (fun acc sem => fold_left (accumulate mode) (s_courses sem) acc)
            semesters (lit 0, lit 0).

Definition cgpa (semesters : list Semester) (mode : CalculationMode) : num :=
  let '(totalPoints, totalCredits) := cgpa_totals semesters mode in
  if eq0 totalCredits then lit 0 else toFixed2 (totalPoints / totalCredits).

Record ChartPoint : Type := {
  cp_name : string;
  cp_semGPA : num;
  cp_cgpa : num
}.

(** [semesters.map] in [chartData], with the two counters the callback
    updates passed along. *)
Fixpoint chartData_from (mode : CalculationMode) (acc : num * num)
    (semesters : list Semester) : list ChartPoint :=
  match semesters with
  | [] => []
  | sem :: rest =>
      let acc' := fold_left (accumulate mode) (s_courses sem) acc in
      let '(cumulativePoints, cumulativeCredits) := acc' in
      let cumulativeGPA :=
        if eq0 cumulativeCredits then lit 0 else cumulativePoints / cumulativeCredits in
      {| cp_name := s_name sem; cp_semGPA := s_gpa sem; cp_cgpa := toFixed2 cumulativeGPA |}
        :: chartData_from mode acc' rest
  end.

Definition chartData (semesters : list Semester) (mode : CalculationMode) : list ChartPoint :=
  chartData_from mode (lit 0, lit 0) semesters.

(** ** App.tsx: the state and its handlers *)

(** [`${n}`] for a natural number [n]: its decimal numeral. *)
Definition show_nat (n : nat) : string := NilEmpty.string_of_uint (Nat.to_uint n).

(** The part of the component state the handlers below read and write. *)
Record AppState : Type := {
  mode : CalculationMode;
  semesters : list Semester
}.

Definition initialState : AppState :=
  {| mode := Standard4;
     semesters := [ {| s_id := "sem-1"; s_name := "Semester 1"; s_courses := []; s_gpa := lit 0 |} ] |}.

Definition setMode (m : CalculationMode) (st : AppState) : AppState :=
  {| mode := m; semesters := semesters st |}.

Definition handleUpdateCourses (semId : string) (updatedCourses : list Course)
    (st : AppState) : AppState :=
  {| mode := mode st;
     semesters :=
       map (fun sem =>
              if String.eqb (s_id sem) semId
              then {| s_id := s_id sem;
                      s_name := s_name sem;
                      s_courses := updatedCourses;
                      s_gpa := calculateSemesterGPA (mode st) updatedCourses |}
              else sem)
           (semesters st) |}.

(** [now] is the value [Date.now()] returns in the handler. *)
Definition addSemester (now : nat) (st : AppState) : AppState :=
  let newId := "sem-" ++ show_nat now in
  {| mode := mode st;
     semesters :=
       semesters st ++
       [ {| s_id := newId;
            s_name := "Semester " ++ show_nat (List.length (semesters st) + 1);
            s_courses := [];
            s_gpa := lit 0 |} ] |}.

Definition removeSemester (id : string) (st : AppState) : AppState :=
  {| mode := mode st;
     semesters := filter (fun s => negb (String.eqb (s_id s) id)) (semesters st) |}.

(** The [onChange] of the semester name input. *)
Definition renameSemester (id val : string) (st : AppState) : AppState :=
  {| mode := mode st;
     semesters :=
       map (fun s =>
              if String.eqb (s_id s) id
              then {| s_id := s_id s; s_name := val; s_courses := s_courses s; s_gpa := s_gpa s |}
              else s)
           (semesters st) |}.

(** The state update of the [onloadend] callback of [handleTranscriptUpload]
    once [parseTranscriptImage] has returned [parsedCourses]; an empty list
    leaves the semesters alone.  The callback was created in the render in
    which the file was chosen, and its [calculateSemesterGPA] reads the
    mode of that render, [closureMode]; [setSemesters(prev => ...)] appends
    to the semesters of [st], the state when the call returns. *)
Definition importTranscript (closureMode : CalculationMode) (now : nat)
    (parsedCourses : list Course) (st : AppState) : AppState :=
  if Nat.ltb 0 (List.length parsedCourses) then
    let newId := "sem-import-" ++ show_nat now in
    let gpa := calculateSemesterGPA closureMode parsedCourses in
    {| mode := mode st;
       semesters :=
         semesters st ++
         [ {| s_id := newId; s_name := "Imported Transcript";
              s_courses := parsedCourses; s_gpa := gpa |} ] |}
  else st.

(** The user actions and completed calls that update the state.  The
    transcript of [ImportTranscript] was uploaded [chosen] updates before
    the call returns: 0 when no update came in between. *)
Inductive Action : Type :=
| SetMode (m : CalculationMode)
| UpdateCourses (semId : string) (updatedCourses : list Course)
| AddSemester (now : nat)
| RemoveSemester (id : string)
| RenameSemester (id val : string)
| ImportTranscript (chosen : nat) (now : nat) (parsedCourses : list Course).

(** The mode of the render [k] updates back, [current] being the mode in
    force and [past] the modes of the earlier renders, the latest first;
    the first render when [k] reaches beyond it. *)
Definition modeBack (past : list CalculationMode) (current : CalculationMode)
    (k : nat) : CalculationMode :=
  nth k (current :: past) (last past current).

(** The mode the handler of [a] computes a GPA with: the mode in force for
    the handlers that run in the current render, the mode of the render
    the file was chosen in for a transcript. *)
Definition handlerMode (past : list CalculationMode) (st : AppState) (a : Action)
  : CalculationMode :=
  match a with
  | ImportTranscript chosen _ _ => modeBack past (mode st) chosen
  | _ => mode st
  end.

Definition step (past : list CalculationMode) (st : AppState) (a : Action) : AppState :=
  match a with
  | SetMode m => setMode m st
  | UpdateCourses semId cs => handleUpdateCourses semId cs st
  | AddSemester now => addSemester now st
  | RemoveSemester id => removeSemester id st
  | RenameSemester id val => renameSemester id val st
  | ImportTranscript chosen now cs =>
      importTranscript (modeBack past (mode st) chosen) now cs st
  end.

(** The state after [actions], from [st] with the earlier modes [past]. *)
Fixpoint run_from (past : list CalculationMode) (st : AppState) (actions : list Action)
  : AppState :=
  match actions with
  | [] => st
  | a :: rest => run_from (mode st :: past) (step past st a) rest
  end.

Definition run (actions : list Action) : AppState := run_from [] initialState actions.

(** The cached [gpa] of a semester agrees with its courses under [m]. *)
Definition gpa_fresh (m : CalculationMode) (sem : Semester) : Prop :=
  s_gpa sem = calculateSemesterGPA m (s_courses sem).

(** ** components/CourseList.tsx *)

(** [parseInt(s)]: leading white space, a sign, a radix prefix, then the
    longest run of digits; [None] is [NaN]. *)

(** The white space and line terminators of one byte: U+0009 to U+000D and
    U+0020. *)
Definition isWhiteSpace (c : ascii) : bool :=
  let n := nat_of_ascii c in
  orb (Nat.eqb n 32) (andb (Nat.leb 9 n) (Nat.leb n 13)).

(** The one of two bytes: U+00A0. *)
Definition isWhiteSpace2 (c1 c2 : ascii) : bool :=
  andb (Nat.eqb (nat_of_ascii c1) 194) (Nat.eqb (nat_of_ascii c2) 160).

(** Those of three bytes: U+1680, U+2000 to U+200A, U+2028, U+2029, U+202F,
    U+205F, U+3000 and U+FEFF. *)
Definition isWhiteSpace3 (c1 c2 c3 : ascii) : bool :=
  let n1 := nat_of_ascii c1 in
  let n2 := nat_of_ascii c2 in
  let n3 := nat_of_ascii c3 in
  orb (andb (Nat.eqb n1 225) (andb (Nat.eqb n2 154) (Nat.eqb n3 128)))
 (orb (andb (Nat.eqb n1 226)
         (orb (andb (Nat.eqb n2 128)
                 (orb (andb (Nat.leb 128 n3) (Nat.leb n3 138))
                 (orb (Nat.eqb n3 168) (orb (Nat.eqb n3 169) (Nat.eqb n3 175)))))
              (andb (Nat.eqb n2 129) (Nat.eqb n3 159))))
 (orb (andb (Nat.eqb n1 227) (andb (Nat.eqb n2 128) (Nat.eqb n3 128)))
      (andb (Nat.eqb n1 239) (andb (Nat.eqb n2 187) (Nat.eqb n3 191))))).

Fixpoint trimStart (s : string) : string :=
  match s with
  | String c1 s1 =>
      if isWhiteSpace c1 then trimStart s1
      else
        match s1 with
        | String c2 s2 =>
            if isWhiteSpace2 c1 c2 then trimStart s2
            else
              match s2 with
              | String c3 s3 => if isWhiteSpace3 c1 c2 c3 then trimStart s3 else s
              | EmptyString => s
              end
        | EmptyString => s
        end
  | EmptyString => s
  end.

Definition digitValue (radix : Z) (c : ascii) : option Z :=
  let n := Z.of_nat (nat_of_ascii c) in
  let v :=
    if andb (48 <=? n)%Z (n <=? 57)%Z then Some (n - 48)%Z
    else if andb (97 <=? n)%Z (n <=? 122)%Z then Some (n - 87)%Z
    else if andb (65 <=? n)%Z (n <=? 90)%Z then Some (n - 55)%Z
    else None in
  match v with
  | Some d => if (d <? radix)%Z then Some d else None
  | None => None
  end.

Fixpoint parseDigits (radix : Z) (s : string) (acc : option Z) : option Z :=
  match s with
  | String c s' =>
      match digitValue radix c with
      | Some d =>
          parseDigits radix s' (Some (radix * match acc with Some a => a | None => 0 end + d)%Z)
      | None => acc
      end
  | EmptyString => acc
  end.

Definition parseInt (input : string) : option Z :=
  let s := trimStart input in
  let '(sign, s) :=
    match s with
    | String "-" s' => ((-1)%Z, s')
    | String "+" s' => (1%Z, s')
    | _ => (1%Z, s)
    end in
  let '(radix, s) :=
    match s with
    | String "0" (String "x" s') => (16%Z, s')
    | String "0" (String "X" s') => (16%Z, s')
    | _ => (10%Z, s)
    end in
  match parseDigits radix s None with
  | Some v => Some (sign * v)%Z
  | None => None
  end.

(** The number an integer [parseInt] returned is. *)
Definition num_of_Z (z : Z) : num := lit (inject_Z z).

(** [parseInt(value) || 0]. *)
Definition parseInt_or_0 (value : string) : num :=
  match parseInt value with
  | Some z => if truthy (num_of_Z z) then num_of_Z z else lit 0
  | None => lit 0
  end.

(** The four [(field, value)] pairs [handleChange] is called with. *)
Inductive FieldChange : Type :=
| ChangeCode (value : string)
| ChangeTitle (value : string)
| ChangeCredits (value : num)
| ChangeGrade (value : string).

(** [{ ...c, [field]: value }]. *)
Definition setField (c : Course) (ch : FieldChange) : Course :=
  match ch with
  | ChangeCode v =>
      {| c_id := c_id c; c_code := v; c_title := c_title c;
         c_credits := c_credits c; c_grade := c_grade c |}
  | ChangeTitle v =>
      {| c_id := c_id c; c_code := c_code c; c_title := v;
         c_credits := c_credits c; c_grade := c_grade c |}
  | ChangeCredits v =>
      {| c_id := c_id c; c_code := c_code c; c_title := c_title c;
         c_credits := v; c_grade := c_grade c |}
  | ChangeGrade v =>
      {| c_id := c_id c; c_code := c_code c; c_title := c_title c;
         c_credits := c_credits c; c_grade := v |}
  end.

(** The three handlers return the list they hand to [onUpdate]. *)
Definition handleChange (courses : list Course) (id : string) (ch : FieldChange) : list Course :=
  map (fun c => if String.eqb (c_id c) id then setField c ch else c) courses.

(** [scale[0].grade] of an empty scale is a [TypeError]: [None]. *)
Definition handleAddCourse (scale : list GradeScaleItem) (courses : list Course)
    (now : nat) : option (list Course) :=
  match scale with
  | s0 :: _ =>
      let newCourse :=
        {| c_id := "new-" ++ show_nat now; c_code := ""; c_title := "";
           c_credits := lit 3; c_grade := g_grade s0 |} in
      Some (courses ++ [newCourse])%list
  | [] => None
  end.

Definition handleRemove (courses : list Course) (id : string) : list Course :=
  filter (fun c => negb (String.eqb (c_id c) id)) courses.

(** The [onChange] of the credits input, [e.target.value] being [value]. *)
Definition onCreditsChange (courses : list Course) (id value : string) : list Course :=
  handleChange courses id (ChangeCredits (parseInt_or_0 value)).

End Program.

(** ** services/geminiService.ts *)

Record StudyResource : Type := {
  r_title : string;
  r_uri : string;
  r_source : string
}.

Inductive Sentiment : Type := positive | neutral | critical.

Record PlanStep : Type := {
  p_step : string;
  p_details : string
}.

Record AIAnalysisResult : Type := {
  a_summary : string;
  a_recommendations : list string;
  a_projectedGPA : string;
  a_sentiment : Sentiment;
  a_strategicPlan : list PlanStep;
  a_careerPath : option string;
  a_potentialRoles : option (list string)
}.

(** A thrown value: an [Error] and its message. *)
Inductive JsError : Type := Error (message : string).

(** How an awaited promise settles. *)
Inductive Settled (A : Type) : Type :=
| Fulfilled (value : A)
| Rejected (reason : JsError).
Arguments Fulfilled {A} value.
Arguments Rejected {A} reason.

(** What the code reads of a response of [ai.models.generateContent]:
    [response.text] and
    [response.candidates?.[0]?.groundingMetadata?.groundingChunks]. *)
Record WebChunk : Type := {
  w_uri : option string;
  w_title : option string
}.

Record GroundingChunk : Type := {
  web : option WebChunk
}.

Record GenerateContentResponse : Type := {
  text : option string;
  groundingChunks : option (list GroundingChunk)
}.

(** The surroundings of a call: [process.env.API_KEY] and how the service
    settles the [n]-th request made to it. *)
Record World : Type := {
  API_KEY : option string;
  reply : nat -> Settled GenerateContentResponse
}.

(** An [async] function body: it starts with the number of requests made
    so far and ends settled, with the number made by then. *)
Definition Async (A : Type) : Type := nat -> Settled A * nat.

Definition ret {A} (a : A) : Async A := fun n => (Fulfilled a, n).

Definition throw {A} (e : JsError) : Async A := fun n => (Rejected e, n).

Definition bind {A B} (m : Async A) (k : A -> Async B) : Async B :=
  fun n =>
    match m n with
    | (Fulfilled a, n') => k a n'
    | (Rejected e, n') => (Rejected e, n')
    end.

(** [try { m } catch (error) { handler error }]. *)
Definition try_catch {A} (m : Async A) (handler : JsError -> Async A) : Async A :=
  fun n =>
    match m n with
    | (Fulfilled a, n') => (Fulfilled a, n')
    | (Rejected e, n') => handler e n'
    end.

(** A synchronous call that returns or throws. *)
Definition lift {A} (r : Settled A) : Async A := fun n => (r, n).

(** [await ai.models.generateContent(...)]. *)
Definition generateContent (w : World) : Async GenerateContentResponse :=
  fun n => (reply w n, S n).

Declare Scope async_scope.
Delimit Scope async_scope with async.
Notation "x <- m ;; k" := (bind m (fun x => k))
  (at level 61, m at next level, right associativity) : async_scope.
Notation "m ;;; k" := (bind m (fun _ => k))
  (at level 61, right associativity) : async_scope.

(** A string in a condition: [undefined] and the empty string are falsy. *)
Definition truthy_string (s : option string) : bool :=
  match s with
  | Some s => negb (String.eqb s "")
  | None => false
  end.

(** [s || d] for a string. *)
Definition string_or (s : option string) (d : string) : string :=
  match s with
  | Some v => if String.eqb v "" then d else v
  | None => d
  end.

Definition getAiClient (w : World) : Async unit :=
  if negb (truthy_string (API_KEY w)) then throw (Error "API Key not found")
  else ret tt.

(** [s.replace(pat, rep)] for a string pattern: the first occurrence. *)
Fixpoint replace_first (pat rep s : string) : string :=
  if String.prefix pat s
  then (rep ++ String.substring (String.length pat) (String.length s - String.length pat) s)%string
  else match s with
       | String c s' => String c (replace_first pat rep s')
       | EmptyString => EmptyString
       end.

(** [a.findIndex(p)], [-1] when no element passes. *)
Fixpoint findIndex_from {A} (p : A -> bool) (a : list A) (i : Z) : Z :=
  match a with
  | [] => (-1)%Z
  | t :: rest => if p t then i else findIndex_from p rest (i + 1)%Z
  end.

Definition findIndex {A} (p : A -> bool) (a : list A) : Z := findIndex_from p a 0%Z.

(** [a.filter((v, i) => p v i)]. *)
Fixpoint filter_from {A} (p : A -> Z -> bool) (a : list A) (i : Z) : list A :=
  match a with
  | [] => []
  | v :: rest => if p v i then v :: filter_from p rest (i + 1)%Z else filter_from p rest (i + 1)%Z
  end.

Definition filter_indexed {A} (p : A -> Z -> bool) (a : list A) : list A := filter_from p a 0%Z.

(** [a.map((c, index) => f c index)]. *)
Fixpoint map_from {A B} (f : A -> nat -> B) (a : list A) (index : nat) : list B :=
  match a with
  | [] => []
  | c :: rest => f c index :: map_from f rest (S index)
  end.

Definition map_indexed {A B} (f : A -> nat -> B) (a : list A) : list B := map_from f a 0.

Definition fallbackAnalysis : AIAnalysisResult :=
  {| a_summary := "Could not generate advanced strategy at this time.";
     a_recommendations := ["Ensure your API Key is valid."%string];
     a_projectedGPA := "N/A";
     a_sentiment := neutral;
     a_strategicPlan := [];
     a_careerPath := None;
     a_potentialRoles := None |}.

Section Service.

Context {N : JsNumber}.
Local Open Scope async_scope.

(** An element of the array the transcript response holds, with the
    fields of its [responseSchema]; [None] is an absent field. *)
Record RawCourse : Type := {
  raw_code : option string;
  raw_title : option string;
  raw_credits : option num;
  raw_grade : option string
}.

(** [JSON.parse] read at the type each caller uses its result at, and the
    [hostname] of [new URL(uri)]; both throw on a text they reject. *)
Variable JSON_parse_courses : string -> Settled (list RawCourse).
Variable JSON_parse_analysis : string -> Settled AIAnalysisResult.
Variable URL_hostname : string -> Settled string.

(** [c.credits || 3]. *)
Definition credits_or_3 (c : option num) : num :=
  match c with
  | Some v => if truthy v then v else lit 3
  | None => lit 3
  end.

(** The callback of [rawData.map]; [now] is what [Date.now()] returns in
    this invocation. *)
Definition toCourse (now : nat -> nat) (c : RawCourse) (index : nat) : Course :=
  {| c_id := ("parsed-" ++ show_nat (now index) ++ "-" ++ show_nat index)%string;
     c_code := string_or (raw_code c) "UNKNOWN";
     c_title := string_or (raw_title c) "Parsed Course";
     c_credits := credits_or_3 (raw_credits c);
     c_grade := string_or (raw_grade c) "C" |}.

Definition parseTranscriptImage (w : World) (now : nat -> nat) : Async (list Course) :=
  getAiClient w ;;;
  try_catch
    (response <- generateContent w ;;
     match text response with
     | Some text =>
         if String.eqb text "" then ret []
         else
           rawData <- lift (JSON_parse_courses text) ;;
           ret (map_indexed (toCourse now) rawData)
     | None => ret []
     end)
    (fun error => throw error).

(** The body of [chunks.forEach]: a chunk with a [uri] and a [title] is
    pushed on [resources]. *)
Definition pushChunk (resources : list StudyResource) (chunk : GroundingChunk)
  : Async (list StudyResource) :=
  match web chunk with
  | Some {| w_uri := Some uri; w_title := Some title |} =>
      if andb (negb (String.eqb uri "")) (negb (String.eqb title "")) then
        hostname <- lift (URL_hostname uri) ;;
        ret (resources ++ [ {| r_title := title; r_uri := uri;
                               r_source := replace_first "www." "" hostname |} ])
      else ret resources
  | _ => ret resources
  end.

Fixpoint collectResources (chunks : list GroundingChunk) (resources : list StudyResource)
  : Async (list StudyResource) :=
  match chunks with
  | [] => ret resources
  | chunk :: rest =>
      resources' <- pushChunk resources chunk ;;
      collectResources rest resources'
  end.

Definition uniqueResources (resources : list StudyResource) : list StudyResource :=
  filter_indexed
    (fun v i => Z.eqb (findIndex (fun t => String.eqb (r_uri t) (r_uri v)) resources) i)
    resources.

Definition findStudyResources (w : World) : Async (list StudyResource) :=
  getAiClient w ;;;
  try_catch
    (response <- generateContent w ;;
     match groundingChunks response with
     | None => ret []
     | Some chunks =>
         resources <- collectResources chunks [] ;;
         ret (firstn 5 (uniqueResources resources))
     end)
    (fun error => ret []).

Definition generateAcademicStrategy (w : World) : Async AIAnalysisResult :=
  getAiClient w ;;;
  try_catch
    (response <- generateContent w ;;
     match text response with
     | Some text =>
         if String.eqb text "" then throw (Error "No response from AI")
         else lift (JSON_parse_analysis text)
     | None => throw (Error "No response from AI")
     end)
    (fun error => ret fallbackAnalysis).

(** ** App.tsx: the call sites *)

Inductive ProcessingStatus : Type :=
| idle | scanning | thinking | searching | complete | error.

(** The state variables the two handlers write. *)
Record Ui : Type := {
  status : ProcessingStatus;
  errorMessage : option string;
  analysis : option AIAnalysisResult;
  foundResources : list StudyResource
}.

(** [n] is the number of requests made before the handler runs. *)
Definition handleGenerateStrategy (w : World) (n : nat) (ui : Ui) : Ui :=
  match fst (generateAcademicStrategy w n) with
  | Fulfilled result =>
      {| status := complete; errorMessage := errorMessage ui;
         analysis := Some result; foundResources := foundResources ui |}
  | Rejected _ =>
      {| status := error; errorMessage := Some "Strategy generation failed."%string;
         analysis := None; foundResources := foundResources ui |}
  end.

Definition handleFindResources (w : World) (n : nat) (course : Course) (ui : Ui) : Ui :=
  if String.eqb (c_title course) "" then ui
  else
    match fst (findStudyResources w n) with
    | Fulfilled resources =>
        {| status := complete; errorMessage := errorMessage ui;
           analysis := analysis ui; foundResources := resources |}
    | Rejected _ =>
        {| status := error; errorMessage := Some "Could not find resources."%string;
           analysis := analysis ui; foundResources := [] |}
    end.

End Service.

(** ** The vocabulary of the specification *)

Section Vocabulary.

Context {N : JsNumber}.
Local Open Scope js_scope.

(** All recorded courses, semester after semester. *)
Definition allCourses (semesters : list Semester) : list Course :=
  List.concat (map s_courses semesters).

(** The credits of a list of courses, added up from the left as the code
    adds them. *)
Definition creditTotal (courses : list Course) : num :=
  fold_left (fun sum c => sum + c_credits c) courses (lit 0).

(** The grade points of a list of courses, each weighted by its credits. *)
Definition pointTotal (mode : CalculationMode) (courses : list Course) : num :=
  fold_left (fun sum c => sum + getPoint (c_grade c) mode * c_credits c) courses (lit 0).

(** A semester of the new state either keeps the courses and the cached
    [gpa] of a semester of the old state [st], or carries a [gpa] computed
    from its courses under [m]. *)
Definition kept_or_recomputed (st : AppState) (m : CalculationMode) (sem' : Semester) : Prop :=
  (exists sem, In sem (semesters st) /\
               s_courses sem' = s_courses sem /\ s_gpa sem' = s_gpa sem) \/
  gpa_fresh m sem'.

(** [course] is [c] with its missing and falsy fields replaced by the
    defaults, and its other fields kept. *)
Definition defaults_filled (c : RawCourse) (course : Course) : Prop :=
  (truthy_string (raw_code c) = false -> c_code course = "UNKNOWN"%string) /\
  (forall s, raw_code c = Some s -> s <> ""%string -> c_code course = s) /\
  (truthy_string (raw_title c) = false -> c_title course = "Parsed Course"%string) /\
  (forall s, raw_title c = Some s -> s <> ""%string -> c_title course = s) /\
  (raw_credits c = None -> c_credits course = lit 3) /\
  (raw_credits c = Some (lit 0) -> c_credits course = lit 3) /\
  (forall v, raw_credits c = Some v -> c_credits course = if truthy v then v else lit 3) /\
  (truthy_string (raw_grade c) = false -> c_grade course = "C"%string) /\
  (forall s, raw_grade c = Some s -> s <> ""%string -> c_grade course = s).

End Vocabulary.

(** The uris of a list in order of first occurrence: the head, then the
    first occurrences of the others. *)
Fixpoint first_occurrences (l : list string) : list string :=
  match l with
  | [] => []
  | u :: rest => u :: filter (fun v => negb (String.eqb v u)) (first_occurrences rest)
  end.


(** The uris of the chunks that carry both a uri and a title. *)
Definition chunk_uris (chunks : list GroundingChunk) : list string :=
  flat_map (fun chunk =>
              match web chunk with
              | Some {| w_uri := Some uri; w_title := Some title |} =>
                  if andb (negb (String.eqb uri "")) (negb (String.eqb title "")) then [uri] else []
              | _ => []
              end) chunks.

(** [u] is none of the uris [seen]. *)
Definition unseen (seen : list string) (u : string) : bool :=
  negb (existsb (String.eqb u) seen).

(** No character of [s] is a dash. *)
Fixpoint dashless (s : string) : Prop :=
  match s with
  | EmptyString => True
  | String c s' => c <> "-"%char /\ dashless s'
  end.

(** ** Sample data *)

Definition sampleCourse (id code grade : string) (credits : Q) : @Course exact :=
  {| c_id := id; c_code := code; c_title := "Course " ++ code;
     c_credits := credits; c_grade := grade |}.

Definition sampleSemesters : list (@Semester exact) :=
  [ {| s_id := "sem-1"; s_name := "Semester 1";
       s_courses := [ sampleCourse "1" "CS101" "A" 4; sampleCourse "2" "MATH101" "B+" 4 ];
       s_gpa := 365 # 100 |};
    {| s_id := "sem-2"; s_name := "Semester 2";
       s_courses := [ sampleCourse "3" "ENG101" "A-" 3 ];
       s_gpa := 37 # 10 |} ].

(** One semester with three credits of A and one credit of A-: the mean
    3.925 is half way between two hundredths. *)
Definition tieCourses (N : JsNumber) : list (@Course N) :=
  [ @Build_Course N "1" "CS101" "Programming" (lit 3) "A";
    @Build_Course N "2" "ENG101" "Writing" (lit 1) "A-" ].

Definition tieSemesters (N : JsNumber) : list (@Semester N) :=
  [ @Build_Semester N "sem-1" "Semester 1" (tieCourses N) (lit 0) ].

(** A session: a course is added to the first semester and graded A, a
    second semester is added, the scale is switched to 5.0, and a course
    is added to the second semester. *)
Definition scaleSwitchSession : list (@Action exact) :=
  [ UpdateCourses "sem-1" [ sampleCourse "new-1" "CS101" "A" 3 ];
    AddSemester 7;
    SetMode Standard5;
    UpdateCourses "sem-7" [ sampleCourse "new-8" "MATH101" "B" 3 ] ].

(** A session: a course is added to the first semester, then "-3" is
    typed in its credits input. *)
Definition negativeCreditsSession : list (@Action exact) :=
  match handleAddCourse SCALE_4_0 [] 1 with
  | Some added =>
      [ UpdateCourses "sem-1" added;
        UpdateCourses "sem-1" (onCreditsChange added "new-1" "-3") ]
  | None => []
  end.

(** No credential, and a service that cannot be reached. *)
Definition offline : World :=
  {| API_KEY := None; reply := fun _ => Rejected (Error "fetch failed") |}.

Definition sampleChunk (uri title : string) : GroundingChunk :=
  {| web := Some {| w_uri := Some uri; w_title := Some title |} |}.

Definition sampleChunks : list GroundingChunk :=
  [ sampleChunk "https://www.a.edu/cs101" "Notes";
    sampleChunk "https://b.org/intro" "Lectures";
    sampleChunk "https://www.a.edu/cs101" "Notes again";
    {| web := None |} ].



Definition sampleResponse : GenerateContentResponse :=
  {| text := Some "[ two courses ]"%string; groundingChunks := Some sampleChunks |}.

(** A credential, and a service that answers every request with
    [sampleResponse]. *)
Definition online : World :=
  {| API_KEY := Some "key"%string; reply := fun _ => Fulfilled sampleResponse |}.

(** A stand-in for [new URL(uri).hostname] that knows two uris. *)
Definition sampleHostname (uri : string) : Settled string :=
  if String.eqb uri "https://www.a.edu/cs101" then Fulfilled "www.a.edu"%string
  else if String.eqb uri "https://b.org/intro" then Fulfilled "b.org"%string
  else Rejected (Error "Invalid URL").

(** The two courses of a transcript, the second without a title or a grade
    and with 0 credits. *)
Definition sampleRawCourses : list (@RawCourse exact) :=
  [ {| raw_code := Some "CS101"%string; raw_title := Some "Programming"%string;
       raw_credits := Some (4 : Q); raw_grade := Some "A"%string |};
    {| raw_code := Some "MATH101"%string; raw_title := None;
       raw_credits := Some (0 : Q); raw_grade := Some ""%string |} ].

(** A stand-in for [JSON.parse] that reads every text as [sampleRawCourses]. *)
Definition sampleParse (t : string) : Settled (list (@RawCourse exact)) :=
  Fulfilled sampleRawCourses.

(** A stand-in for [JSON.parse] that rejects every text. *)
Definition sampleParseAnalysis (t : string) : Settled AIAnalysisResult :=
  Rejected (Error "Unexpected token").

(** ** App.tsx: the transcript upload *)

Section Upload.

Context {N : JsNumber}.
Variable JSON_parse_courses : string -> Settled (list RawCourse).
Local Open Scope js_scope.

(** [handleTranscriptUpload] up to [reader.readAsDataURL(file)];
    [hasFile] tells whether [e.target.files?.[0]] is a file. *)
Definition handleTranscriptUpload (hasFile : bool) (ui : Ui) : Ui :=
  if hasFile then
    {| status := scanning; errorMessage := None;
       analysis := analysis ui; foundResources := foundResources ui |}
  else ui.

(** The [onloadend] callback [handleTranscriptUpload] installs.  [result]
    is [reader.result]: a data URL, or [None] ([null]) when the read
    failed, which makes [reader.result.split] throw inside the [try].
    [closureMode] is the mode of the render the file was chosen in; [st]
    and [ui] are the state when [parseTranscriptImage] has settled, which
    the updates after the [await] apply to.  [now] is the clock of
    [parseTranscriptImage], [nowId] the reading that names the semester,
    [n] the number of requests made before. *)
Definition onloadend (w : World) (result : option string)
    (now : nat -> nat) (nowId : nat) (n : nat) (closureMode : CalculationMode)
    (st : AppState) (ui : Ui) : AppState * Ui :=
  let failed (message : string) :=
    {| status := error; errorMessage := Some message;
       analysis := analysis ui; foundResources := foundResources ui |} in
  match result with
  | None => (st, failed "Failed to process image. Ensure API Key is set."%string)
  | Some dataUrl =>
      match fst (parseTranscriptImage JSON_parse_courses w now n) with
      | Fulfilled parsedCourses =>
          if Nat.ltb 0 (List.length parsedCourses) then
            (importTranscript closureMode nowId parsedCourses st,
             {| status := complete; errorMessage := errorMessage ui;
                analysis := analysis ui; foundResources := foundResources ui |})
          else
            (st, failed "Could not detect any courses. Please try a clearer image."%string)
      | Rejected _ =>
          (st, failed "Failed to process image. Ensure API Key is set."%string)
      end
  end.

End Upload.

(** The actions that leave the scale alone. *)
Definition keepsMode {N : JsNumber} (a : @Action N) : bool :=
  match a with
  | SetMode _ => false
  | _ => true
  end.

(** The readings of [Date.now()] that name the semesters a session adds. *)
Definition semesterClock {N : JsNumber} (a : @Action N) : list nat :=
  match a with
  | AddSemester now => [now]
  | ImportTranscript _ now parsedCourses =>
      if Nat.ltb 0 (List.length parsedCourses) then [now] else []
  | _ => []
  end.

(** The pair of grade and credits is all the GPA reads of a course. *)
Definition gradeAndCredits {N : JsNumber} (c : @Course N) : string * num :=
  (c_grade c, c_credits c).

(** Every id is "sem-1" or was made from a reading of [used]. *)
Definition ids_from {N : JsNumber} (used : list nat) (sems : list (@Semester N)) : Prop :=
  forall sem, In sem sems ->
    s_id sem = "sem-1"%string \/
    exists n, In n used /\
      (s_id sem = ("sem-" ++ show_nat n)%string \/
       s_id sem = ("sem-import-" ++ show_nat n)%string).

(** [a] and [b] write the same field. *)
Definition sameField {N : JsNumber} (a b : @FieldChange N) : bool :=
  match a, b with
  | ChangeCode _, ChangeCode _ | ChangeTitle _, ChangeTitle _
  | ChangeCredits _, ChangeCredits _ | ChangeGrade _, ChangeGrade _ => true
  | _, _ => false
  end.

(** [pat] occurs in [s]. *)
Fixpoint occursIn (pat s : string) : bool :=
  if String.prefix pat s then true
  else match s with
       | String _ s' => occursIn pat s'
       | EmptyString => false
       end.

(** [chunk] carries the uri and the title of [r], and the source of [r] is
    the host name of its uri without the first "www.". *)
Definition resource_of_chunk (URL_hostname : string -> Settled string)
    (chunk : GroundingChunk) (r : StudyResource) : Prop :=
  web chunk = Some {| w_uri := Some (r_uri r); w_title := Some (r_title r) |} /\
  r_uri r <> ""%string /\ r_title r <> ""%string /\
  exists hostname,
    URL_hostname (r_uri r) = Fulfilled hostname /\
    r_source r = replace_first "www." "" hostname.

(** ** More sample data *)

(** The courses of [sampleSemesters] in one semester. *)
Definition sampleMerged : list (@Semester exact) :=
  [ {| s_id := "sem-9"; s_name := "All";
       s_courses := allCourses sampleSemesters; s_gpa := 0 |} ].

Definition sampleUi : Ui :=
  {| status := idle; errorMessage := None; analysis := None; foundResources := [] |}.

(** A stand-in for [JSON.parse] that rejects every text. *)
Definition sampleParseReject (t : string) : Settled (list (@RawCourse exact)) :=
  Rejected (Error "Unexpected token").

Definition sampleAnalysis : AIAnalysisResult :=
  {| a_summary := "Solid."; a_recommendations := []; a_projectedGPA := "3.9";
     a_sentiment := positive; a_strategicPlan := [];
     a_careerPath := None; a_potentialRoles := None |}.

(** A stand-in for [JSON.parse] that reads every text as [sampleAnalysis]. *)
Definition sampleParseAnalysisOk (t : string) : Settled AIAnalysisResult :=
  Fulfilled sampleAnalysis.

Definition sampleResources : list StudyResource :=
  [ {| r_title := "Notes"; r_uri := "https://www.a.edu/cs101"; r_source := "a.edu" |};
    {| r_title := "Lectures"; r_uri := "https://b.org/intro"; r_source := "b.org" |} ].

(** * Results that hold for every implementation of the numbers *)

Section Structural.

Context {N : JsNumber}.
Local Open Scope js_scope.

(** The pair of running totals is the pair of the two separate sums. *)
Lemma fold_accumulate (mode : CalculationMode) (courses : list Course) (p c : num) :
  fold_left (accumulate mode) courses (p, c) =
  (fold_left (fun sum x => sum + getPoint (c_grade x) mode * c_credits x) courses p,
   fold_left (fun sum x => sum + c_credits x) courses c).
Proof.
  revert p c. induction courses as [|x rest IH]; intros p c; simpl.
  - reflexivity.
  - apply IH.
Qed.

(** The nested loops of [cgpa] are one loop over all courses. *)
Lemma nested_loops_flatten (mode : CalculationMode) (sems : list Semester) (acc : num * num) :
  fold_left (fun a sem => fold_left (accumulate mode) (s_courses sem) a) sems acc =
  fold_left (accumulate mode) (allCourses sems) acc.
Proof.
  revert acc. induction sems as [|sem rest IH]; intros acc; simpl.
  - reflexivity.
  - unfold allCourses. simpl. rewrite fold_left_app. apply IH.
Qed.

Lemma cgpa_totals_flat (sems : list Semester) (mode : CalculationMode) :
  cgpa_totals sems mode = (pointTotal mode (allCourses sems), creditTotal (allCourses sems)).
Proof.
  unfold cgpa_totals. rewrite nested_loops_flatten. apply fold_accumulate.
Qed.

Lemma cgpa_unfold (sems : list Semester) (mode : CalculationMode) :
  cgpa sems mode =
  if eq0 (creditTotal (allCourses sems)) then lit 0
  else toFixed2 (pointTotal mode (allCourses sems) / creditTotal (allCourses sems)).
Proof.
  unfold cgpa. rewrite cgpa_totals_flat. reflexivity.
Qed.

(** The two totals are sums over the courses, taken from the left: each
    course adds its credits, and its grade point times its credits. *)
Lemma creditTotal_snoc (courses : list Course) (c : Course) :
  creditTotal [] = lit 0 /\
  creditTotal (courses ++ [c]) = creditTotal courses + c_credits c.
Proof.
  split; [reflexivity|]. unfold creditTotal. rewrite fold_left_app. reflexivity.
Qed.

Lemma pointTotal_snoc (mode : CalculationMode) (courses : list Course) (c : Course) :
  pointTotal mode [] = lit 0 /\
  pointTotal mode (courses ++ [c]) =
    pointTotal mode courses + getPoint (c_grade c) mode * c_credits c.
Proof.
  split; [reflexivity|]. unfold pointTotal. rewrite fold_left_app. reflexivity.
Qed.



(** C2. For every mode and every grade that is not a grade of the scale the
    mode selects, [getPoint] returns 0. *)
Theorem getPoint_unrecognized (grade : string) (mode : CalculationMode) :
  ~ In grade (map g_grade (scaleOf mode)) ->
  getPoint grade mode = lit 0.
Proof.
  intros Hnot. unfold getPoint.
  destruct (find (fun s => String.eqb (g_grade s) grade) (scaleOf mode)) as [item|] eqn:Hfind.
  - apply find_some in Hfind. destruct Hfind as [Hin Heq].
    apply String.eqb_eq in Heq. exfalso. apply Hnot.
    rewrite <- Heq. apply in_map. exact Hin.
  - reflexivity.
Qed.

(** C3. The credit total [cgpa] divides by is the sum of the credits of
    the recorded courses, whatever the mode: it is the same under the 4.0
    and the 5.0 scale. *)
Theorem credit_total_mode_independent (sems : list Semester) :
  (forall mode, snd (cgpa_totals sems mode) = creditTotal (allCourses sems)) /\
  snd (cgpa_totals sems Standard4) = snd (cgpa_totals sems Standard5).
Proof.
  assert (H : forall mode, snd (cgpa_totals sems mode) = creditTotal (allCourses sems)).
  { intros mode. rewrite cgpa_totals_flat. reflexivity. }
  split; [exact H|]. rewrite !H. reflexivity.
Qed.

(** C7. With exactly one semester recorded, the overall CGPA is the GPA
    [calculateSemesterGPA] computes for the courses of that semester. *)
Theorem cgpa_single_semester (sem : Semester) (mode : CalculationMode) :
  cgpa [sem] mode = calculateSemesterGPA mode (s_courses sem).
Proof.
  rewrite cgpa_unfold. unfold allCourses, calculateSemesterGPA. simpl.
  rewrite app_nil_r.
  destruct (s_courses sem) as [|c rest] eqn:Hcs.
  - simpl. unfold creditTotal. simpl. rewrite eq0_lit0. reflexivity.
  - reflexivity.
Qed.

(** What [chartData] stores for the running totals [acc]. *)
Lemma chartData_from_last (mode : CalculationMode) (sems : list Semester)
    (acc : num * num) (d : ChartPoint) :
  sems <> [] ->
  cp_cgpa (last (chartData_from mode acc sems) d) =
  (let '(p, c) := fold_left (accumulate mode) (allCourses sems) acc in
   toFixed2 (if eq0 c then lit 0 else p / c)).
Proof.
  revert acc. induction sems as [|sem rest IH]; intros acc Hne; [congruence|].
  unfold allCourses. simpl map. simpl List.concat. rewrite fold_left_app.
  simpl chartData_from.
  destruct (fold_left (accumulate mode) (s_courses sem) acc) as [p c] eqn:Hacc.
  destruct rest as [|sem' rest'].
  - simpl. reflexivity.
  - assert (Hne' : sem' :: rest' <> []) by congruence.
    specialize (IH (p, c) Hne').
    change (List.concat (map s_courses (sem' :: rest'))) with (allCourses (sem' :: rest')).
    rewrite <- IH.
    remember (sem' :: rest') as tl.
    destruct (chartData_from mode (p, c) tl) as [|q qs] eqn:Hq.
    + subst tl. simpl in Hq.
      destruct (fold_left (accumulate mode) (s_courses sem') (p, c)); discriminate.
    + reflexivity.
Qed.

(** C10. For a non-empty list of semesters, the [cgpa] of the last entry
    of [chartData] is the overall CGPA. *)
Theorem chartData_last_is_cgpa (sems : list Semester) (mode : CalculationMode)
    (d : ChartPoint) :
  sems <> [] ->
  List.length (chartData sems mode) = List.length sems /\
  cp_cgpa (last (chartData sems mode) d) = cgpa sems mode.
Proof.
  intros Hne. split.
  - unfold chartData. generalize (lit 0, lit 0) as acc.
    clear Hne. induction sems as [|sem rest IH]; intros acc; simpl; [reflexivity|].
    destruct (fold_left (accumulate mode) (s_courses sem) acc) as [p c].
    simpl. f_equal. apply IH.
  - unfold chartData. rewrite chartData_from_last by exact Hne.
    rewrite cgpa_unfold, fold_accumulate.
    fold (pointTotal mode (allCourses sems)). fold (creditTotal (allCourses sems)).
    destruct (eq0 (creditTotal (allCourses sems))).
    + apply toFixed2_lit0.
    + reflexivity.
Qed.

End Structural.

(** ** Rounding on doubles *)

(** [toFixed(2)] rounds the exact value of a finite double: it prints [n]
    hundredths, [n] being the integer nearest to 100 times the magnitude,
    the larger one on a tie, and [parseFloat] reads the numeral back as
    the double nearest to [n / 100], which is the double itself from 2^53
    hundredths on. *)
Lemma double_toFixed2_nearest_hundredth (s : bool) (m : BinNums.positive) (e : Z) :
  let x := S754_finite s m e in
  let n := Qfloor (Qabs (double_value x) * 100 + (1 # 2)) in
  double_toFixed2 x =
  if (2 ^ 53 <=? n)%Z then x
  else
    let r := SFdiv 53 1024 (double_of_Z n) (double_of_Z 100) in
    if s then SFopp r else r.
Proof.
  intros x n.
  assert (Hn : n = if (0 <=? e)%Z then (100 * Zpos m * 2 ^ e)%Z
                   else ((200 * Zpos m + 2 ^ (- e)) / 2 ^ (- e + 1))%Z).
  { unfold n, x, double_value. clear n x.
    destruct (0 <=? e)%Z eqn:He.
    - apply Z.leb_le in He.
      replace (100 * Zpos m * 2 ^ e)%Z with (100 * (Zpos m * 2 ^ e))%Z by ring.
      assert (Hpos : (0 < Zpos m * 2 ^ e)%Z)
        by (apply Z.mul_pos_pos; [lia|apply Z.pow_pos_nonneg; lia]).
      generalize dependent (Zpos m * 2 ^ e)%Z. intros k Hpos.
      assert (Habs : Qabs (if s then - inject_Z k else inject_Z k) = inject_Z k).
      { destruct s; unfold Qabs, inject_Z, Qopp; simpl; f_equal; lia. }
      rewrite Habs. unfold Qfloor, Qplus, Qmult, inject_Z. cbn [Qnum Qden Pos.mul].
      symmetry. apply Z.div_unique with (r := 1%Z); lia.
    - apply Z.leb_gt in He.
      assert (Hp : (0 < 2 ^ (- e))%Z) by (apply Z.pow_pos_nonneg; lia).
      set (p := Z.to_pos (2 ^ (- e))).
      assert (Hpp : Zpos p = (2 ^ (- e))%Z) by (unfold p; apply Z2Pos.id; exact Hp).
      assert (Habs : Qabs (if s then - (Zpos m # p) else Zpos m # p) = Zpos m # p).
      { destruct s; reflexivity. }
      rewrite Habs. unfold Qfloor, Qplus, Qmult. simpl Qnum. simpl Qden.
      rewrite !Pos2Z.inj_mul, Hpp.
      replace (- e + 1)%Z with (Z.succ (- e)) by lia.
      rewrite Z.pow_succ_r by lia.
      f_equal; lia. }
  unfold double_toFixed2, x. fold x. rewrite <- Hn. reflexivity.
Qed.

(** * The cached GPA *)

Section StateInvariant.

Context {N : JsNumber}.

Lemma calculateSemesterGPA_nil (m : CalculationMode) : calculateSemesterGPA m [] = lit 0.
Proof. reflexivity. Qed.

Lemma handleUpdateCourses_nth (semId : string) (updated : list Course) (st : AppState)
    (i : nat) (sem : Semester) :
  nth_error (semesters st) i = Some sem ->
  exists sem',
    nth_error (semesters (handleUpdateCourses semId updated st)) i = Some sem' /\
    s_id sem' = s_id sem /\ s_name sem' = s_name sem /\
    (s_id sem = semId ->
     s_courses sem' = updated /\ s_gpa sem' = calculateSemesterGPA (mode st) updated) /\
    (s_id sem <> semId -> sem' = sem).
Proof.
  intros Hnth. unfold handleUpdateCourses. simpl.
  rewrite nth_error_map, Hnth. simpl.
  destruct (String.eqb (s_id sem) semId) eqn:Heq.
  - eexists. split; [reflexivity|]. simpl.
    apply String.eqb_eq in Heq. repeat split; intros; congruence.
  - exists sem. split; [reflexivity|].
    apply String.eqb_neq in Heq. repeat split; intros; congruence.
Qed.

Lemma step_kept_or_recomputed (past : list CalculationMode) (st : AppState) (a : Action)
    (sem' : Semester) :
  In sem' (semesters (step past st a)) ->
  kept_or_recomputed st (handlerMode past st a) sem'.
Proof.
  unfold kept_or_recomputed.
  destruct a as [m|semId cs|now|id|id val|chosen now cs]; simpl; intros Hin.
  - left. exists sem'. auto.
  - apply in_map_iff in Hin. destruct Hin as [sem [Heq Hin]].
    destruct (String.eqb (s_id sem) semId).
    + right. subst sem'. reflexivity.
    + left. subst sem'. exists sem. auto.
  - apply in_app_or in Hin. destruct Hin as [Hin|[Heq|[]]].
    + left. exists sem'. auto.
    + right. subst sem'. reflexivity.
  - apply filter_In in Hin. left. exists sem'. tauto.
  - apply in_map_iff in Hin. destruct Hin as [sem [Heq Hin]].
    left. exists sem. destruct (String.eqb (s_id sem) id); subst sem'; auto.
  - unfold importTranscript in *.
    destruct (Nat.ltb 0 (List.length cs)); simpl in *.
    + apply in_app_or in Hin. destruct Hin as [Hin|[Heq|[]]].
      * left. exists sem'. auto.
      * right. subst sem'. reflexivity.
    + left. exists sem'. auto.
Qed.

Lemma step_mode (past : list CalculationMode) (st : AppState) (a : Action) :
  (forall m, a <> SetMode m) -> mode (step past st a) = mode st.
Proof.
  intros Hns. destruct a; simpl; try reflexivity.
  - exfalso. eapply Hns. reflexivity.
  - unfold importTranscript. destruct (Nat.ltb 0 (List.length parsedCourses)); reflexivity.
Qed.

Lemma step_preserves_fresh (past : list CalculationMode) (st : AppState) (a : Action) :
  (forall m, a <> SetMode m) ->
  handlerMode past st a = mode st ->
  (forall sem, In sem (semesters st) -> gpa_fresh (mode st) sem) ->
  forall sem', In sem' (semesters (step past st a)) -> gpa_fresh (mode (step past st a)) sem'.
Proof.
  intros Hns Hclosure Hinv sem' Hin.
  rewrite (step_mode past st Hns).
  destruct (step_kept_or_recomputed past st a sem' Hin) as [[sem [Hs [Hc Hg]]]|Hf].
  - unfold gpa_fresh in *. rewrite Hg, Hc. apply Hinv, Hs.
  - rewrite <- Hclosure. exact Hf.
Qed.

(** With every earlier mode equal to the mode in force, so is the mode of
    every closure. *)
Lemma modeBack_constant (past : list CalculationMode) (current : CalculationMode) (k : nat) :
  (forall m, In m past -> m = current) -> modeBack past current k = current.
Proof.
  intros Hpast. unfold modeBack.
  assert (Hall : forall m, In m (current :: past) -> m = current).
  { intros m [Hm|Hm]; [congruence|apply Hpast, Hm]. }
  destruct (nth_in_or_default k (current :: past) (last past current)) as [Hin|Hd].
  - apply Hall, Hin.
  - rewrite Hd. clear Hd Hall. induction past as [|p rest IH]; [reflexivity|].
    destruct rest as [|q rest'].
    + simpl. apply Hpast. left. reflexivity.
    + change (last (p :: q :: rest') current) with (last (q :: rest') current).
      apply IH. intros m Hm. apply Hpast. right. exact Hm.
Qed.

Lemma run_from_computed (actions : list Action) (past : list CalculationMode) (st : AppState) :
  (forall sem, In sem (semesters st) -> exists m, gpa_fresh m sem) ->
  forall sem, In sem (semesters (run_from past st actions)) -> exists m, gpa_fresh m sem.
Proof.
  revert past st. induction actions as [|a rest IH]; intros past st Hinv sem Hin; simpl in Hin.
  - apply Hinv, Hin.
  - apply (IH (mode st :: past) (step past st a)); [|exact Hin].
    intros s Hs.
    destruct (step_kept_or_recomputed past st a s Hs) as [[old [Ho [Hc Hg]]]|Hf].
    + destruct (Hinv old Ho) as [m Hm]. exists m. unfold gpa_fresh in *. congruence.
    + eexists. exact Hf.
Qed.

(** X10. What the handlers guarantee for the cached [gpa]: [handleUpdateCourses]
    recomputes it for the semesters it updates, under the mode in force,
    and keeps their [id] and [name]; every update recomputes it for the
    semesters whose courses it sets, under the mode its handler closed
    over; an update that is no mode switch and whose handler closed over
    the mode in force keeps every cached [gpa] the GPA of its courses; and
    in every reachable state every cached [gpa] is the GPA of its courses
    under one of the two modes. *)
Lemma gpa_recomputed_when_courses_change :
  (forall (semId : string) (updated : list Course) (st : AppState) (i : nat) (sem : Semester),
      nth_error (semesters st) i = Some sem ->
      exists sem',
        nth_error (semesters (handleUpdateCourses semId updated st)) i = Some sem' /\
        s_id sem' = s_id sem /\ s_name sem' = s_name sem /\
        (s_id sem = semId ->
         s_courses sem' = updated /\ s_gpa sem' = calculateSemesterGPA (mode st) updated) /\
        (s_id sem <> semId -> sem' = sem)) /\
  (forall (past : list CalculationMode) (st : AppState) (a : Action) (sem' : Semester),
      In sem' (semesters (step past st a)) ->
      kept_or_recomputed st (handlerMode past st a) sem') /\
  (forall (past : list CalculationMode) (st : AppState) (a : Action),
      (forall m, a <> SetMode m) ->
      handlerMode past st a = mode st ->
      (forall sem, In sem (semesters st) -> gpa_fresh (mode st) sem) ->
      forall sem', In sem' (semesters (step past st a)) ->
                   gpa_fresh (mode (step past st a)) sem') /\
  (forall (actions : list Action) (sem : Semester),
      In sem (semesters (run actions)) -> exists m, gpa_fresh m sem).
Proof.
  split; [|split; [|split]].
  - intros. apply handleUpdateCourses_nth. assumption.
  - apply step_kept_or_recomputed.
  - apply step_preserves_fresh.
  - intros actions sem Hin. unfold run in Hin.
    apply (run_from_computed actions [] initialState); [|exact Hin].
    intros s [Hs|[]]. subst s. exists Standard4. reflexivity.
Qed.

End StateInvariant.

(** * The AI service *)

(** ** Deduplication by [findIndex] *)

Section FirstOccurrences.

Variable A : Type.
Variable p : A -> bool.

Lemma findIndex_from_skip (pre suf : list A) (k : Z) :
  existsb p pre = false ->
  findIndex_from p (pre ++ suf) k = findIndex_from p suf (k + Z.of_nat (List.length pre))%Z.
Proof.
  revert k. induction pre as [|x pre IH]; intros k Hex; simpl in *.
  - f_equal. lia.
  - apply orb_false_iff in Hex. destruct Hex as [Hx Hpre]. rewrite Hx.
    rewrite IH by exact Hpre. f_equal. lia.
Qed.

Lemma findIndex_from_early (pre suf : list A) (k : Z) :
  existsb p pre = true ->
  (k <= findIndex_from p (pre ++ suf) k < k + Z.of_nat (List.length pre))%Z.
Proof.
  revert k. induction pre as [|x pre IH]; intros k Hex; simpl in *; [discriminate|].
  destruct (p x) eqn:Hx.
  - lia.
  - simpl in Hex. specialize (IH (k + 1)%Z Hex). lia.
Qed.

End FirstOccurrences.

Lemma filter_filter (A : Type) (f g : A -> bool) (l : list A) :
  filter f (filter g l) = filter (fun x => g x && f x) l.
Proof.
  induction l as [|x l IH]; simpl; [reflexivity|].
  destruct (g x); simpl; [destruct (f x)|]; rewrite IH; reflexivity.
Qed.

Lemma existsb_uri (v : StudyResource) (pre : list StudyResource) :
  existsb (fun t => String.eqb (r_uri t) (r_uri v)) pre =
  existsb (String.eqb (r_uri v)) (map r_uri pre).
Proof.
  induction pre as [|x pre IH]; simpl; [reflexivity|].
  rewrite IH, (String.eqb_sym (r_uri x)). reflexivity.
Qed.

Lemma unique_suffix (full : list StudyResource) (suf pre : list StudyResource) :
  full = pre ++ suf ->
  map r_uri
    (filter_from
       (fun v i => Z.eqb (findIndex (fun t => String.eqb (r_uri t) (r_uri v)) full) i)
       suf (Z.of_nat (List.length pre))) =
  filter (unseen (map r_uri pre)) (first_occurrences (map r_uri suf)).
Proof.
  revert pre. induction suf as [|v rest IH]; intros pre Hfull; [reflexivity|].
  assert (Hnext : full = (pre ++ [v]) ++ rest) by (rewrite <- app_assoc; exact Hfull).
  specialize (IH (pre ++ [v]) Hnext).
  rewrite length_app, Nat2Z.inj_add in IH. simpl List.length in IH.
  change (Z.of_nat 1) with 1%Z in IH.
  assert (Htail :
    filter (unseen (map r_uri (pre ++ [v]))) (first_occurrences (map r_uri rest)) =
    filter (unseen (map r_uri pre))
      (filter (fun u => negb (String.eqb u (r_uri v))) (first_occurrences (map r_uri rest)))).
  { rewrite filter_filter. apply filter_ext. intros u. unfold unseen.
    rewrite map_app, existsb_app. simpl. rewrite orb_false_r, negb_orb.
    apply andb_comm. }
  simpl filter_from. simpl map. simpl first_occurrences. simpl filter.
  unfold unseen at 1. rewrite <- existsb_uri.
  destruct (existsb (fun t => String.eqb (r_uri t) (r_uri v)) pre) eqn:Hseen.
  - pose proof (findIndex_from_early _ pre (v :: rest) 0%Z Hseen) as Hb.
    unfold findIndex at 1. rewrite Hfull.
    destruct (Z.eqb_spec
                (findIndex_from (fun t => String.eqb (r_uri t) (r_uri v)) (pre ++ v :: rest) 0)
                (Z.of_nat (List.length pre))) as [He|_]; [lia|].
    simpl negb. rewrite <- Hfull, IH. exact Htail.
  - unfold findIndex at 1. rewrite Hfull at 1.
    rewrite (findIndex_from_skip _ pre (v :: rest) 0%Z Hseen).
    simpl findIndex_from. rewrite String.eqb_refl, Z.eqb_refl.
    simpl negb. simpl map. rewrite IH. f_equal. exact Htail.
Qed.

Lemma uniqueResources_first_occurrences (rs : list StudyResource) :
  map r_uri (uniqueResources rs) = first_occurrences (map r_uri rs).
Proof.
  unfold uniqueResources, filter_indexed.
  pose proof (@unique_suffix rs rs [] eq_refl) as H.
  change (Z.of_nat (List.length (@nil StudyResource))) with 0%Z in H.
  rewrite H. unfold unseen. simpl. apply filter_true.
Qed.

Lemma first_occurrences_NoDup (l : list string) : NoDup (first_occurrences l).
Proof.
  induction l as [|u rest IH]; simpl; constructor.
  - intros Hin. apply filter_In in Hin. destruct Hin as [_ Hne].
    rewrite String.eqb_refl in Hne. discriminate.
  - apply NoDup_filter, IH.
Qed.


Section Resources.

Variable URL_hostname : string -> Settled string.



Lemma collectResources_counter (chunks : list GroundingChunk) (acc : list StudyResource)
    (n : nat) :
  snd (collectResources URL_hostname chunks acc n) = n.
Proof.
  revert acc. induction chunks as [|chunk rest IH]; intros acc; simpl; [reflexivity|].
  unfold bind, pushChunk.
  destruct (web chunk) as [[[uri|] [title|]]|]; simpl; try apply IH.
  destruct (negb (String.eqb uri "") && negb (String.eqb title "")); simpl; [|apply IH].
  unfold bind, lift. destruct (URL_hostname uri); simpl; [apply IH|reflexivity].
Qed.


End Resources.

(** ** Decimal numerals *)

Lemma string_of_uint_dashless (d : Decimal.uint) : dashless (NilEmpty.string_of_uint d).
Proof. induction d; simpl; try split; try exact I; try assumption; discriminate. Qed.

Lemma show_nat_dashless (n : nat) : dashless (show_nat n).
Proof. apply string_of_uint_dashless. Qed.

Lemma show_nat_inj (n m : nat) : show_nat n = show_nat m -> n = m.
Proof.
  unfold show_nat. intros H. apply Unsigned.to_uint_inj.
  assert (Hs : Some (Nat.to_uint n) = Some (Nat.to_uint m)).
  { rewrite <- !NilEmpty.usu, H. reflexivity. }
  congruence.
Qed.

(** Two numerals joined by a dash determine the numerals. *)
Lemma dash_separates (a a' b b' : string) :
  dashless a -> dashless a' ->
  (a ++ "-" ++ b)%string = (a' ++ "-" ++ b')%string -> a = a' /\ b = b'.
Proof.
  revert a'. induction a as [|c a IH]; intros [|c' a'] Ha Ha' Heq; simpl in *.
  - injection Heq as ->. auto.
  - injection Heq as <- _. destruct Ha' as [Hc _]. congruence.
  - injection Heq as -> _. destruct Ha as [Hc _]. congruence.
  - injection Heq as -> Heq. destruct Ha as [_ Ha], Ha' as [_ Ha'].
    destruct (IH a' Ha Ha' Heq) as [-> ->]. auto.
Qed.

Section Transcript.

Context {N : JsNumber}.
Variable JSON_parse_courses : string -> Settled (list RawCourse).

Lemma toCourse_id_inj (now : nat -> nat) (c c' : RawCourse) (i j : nat) :
  c_id (toCourse now c i) = c_id (toCourse now c' j) -> i = j.
Proof.
  unfold toCourse. simpl. intros H. injection H as H.
  apply dash_separates in H; try apply show_nat_dashless.
  apply show_nat_inj, H.
Qed.

Lemma map_from_ids (now : nat -> nat) (rawData : list RawCourse) (k : nat) (id : string) :
  In id (map c_id (map_from (toCourse now) rawData k)) ->
  exists c j, (k <= j)%nat /\ id = c_id (toCourse now c j).
Proof.
  revert k. induction rawData as [|c rest IH]; intros k Hin; simpl in Hin; [destruct Hin|].
  destruct Hin as [Heq|Hin].
  - exists c, k. split; [lia|]. symmetry. exact Heq.
  - destruct (IH (S k) Hin) as [c' [j [Hj Hid]]]. exists c', j. split; [lia|exact Hid].
Qed.

Lemma map_from_ids_NoDup (now : nat -> nat) (rawData : list RawCourse) (k : nat) :
  NoDup (map c_id (map_from (toCourse now) rawData k)).
Proof.
  revert k. induction rawData as [|c rest IH]; intros k; simpl; constructor.
  - intros Hin. apply map_from_ids in Hin. destruct Hin as [c' [j [Hj Hid]]].
    apply (@toCourse_id_inj now c c' k j) in Hid. lia.
  - apply IH.
Qed.

Lemma map_from_length (A B : Type) (f : A -> nat -> B) (a : list A) (k : nat) :
  List.length (map_from f a k) = List.length a.
Proof. revert k. induction a as [|x a IH]; intros k; simpl; [|rewrite IH]; reflexivity. Qed.

Lemma map_from_nth (A B : Type) (f : A -> nat -> B) (a : list A) (k i : nat) (x : A) :
  nth_error a i = Some x -> nth_error (map_from f a k) i = Some (f x (k + i)%nat).
Proof.
  revert k i. induction a as [|y a IH]; intros k [|i] H; simpl in *; try discriminate.
  - injection H as ->. rewrite Nat.add_0_r. reflexivity.
  - rewrite (IH (S k) i H). f_equal. f_equal. lia.
Qed.

Lemma string_or_default (s : option string) (d : string) :
  truthy_string s = false -> string_or s d = d.
Proof.
  destruct s as [v|]; simpl; [|reflexivity].
  destruct (String.eqb v ""); [reflexivity|discriminate].
Qed.

Lemma string_or_value (s : option string) (d v : string) :
  s = Some v -> v <> ""%string -> string_or s d = v.
Proof.
  intros -> Hne. simpl. apply String.eqb_neq in Hne. rewrite Hne. reflexivity.
Qed.

Lemma toCourse_defaults (now : nat -> nat) (c : RawCourse) (i : nat) :
  defaults_filled c (toCourse now c i).
Proof.
  unfold defaults_filled, toCourse. simpl.
  repeat split; intros;
    try (apply string_or_default; assumption);
    try (eapply string_or_value; eassumption).
  - rewrite H. reflexivity.
  - rewrite H. simpl. rewrite truthy_lit0. reflexivity.
  - rewrite H. reflexivity.
Qed.

(** C9. For every array the response parses to, [parseTranscriptImage]
    returns one course per element, with "UNKNOWN", "Parsed Course", 3 and
    "C" in place of a missing or falsy code, title, credits (0 included)
    and grade, and with pairwise distinct ids. *)
Theorem parsed_courses_defaults_and_ids (w : World) (now : nat -> nat) (n : nat)
    (resp : GenerateContentResponse) (t : string) (rawData : list RawCourse) :
  truthy_string (API_KEY w) = true ->
  reply w n = Fulfilled resp ->
  text resp = Some t -> t <> ""%string ->
  JSON_parse_courses t = Fulfilled rawData ->
  exists courses,
    parseTranscriptImage JSON_parse_courses w now n = (Fulfilled courses, S n) /\
    List.length courses = List.length rawData /\
    (forall i c, nth_error rawData i = Some c ->
       exists course, nth_error courses i = Some course /\ defaults_filled c course) /\
    NoDup (map c_id courses).
Proof.
  intros Hkey Hreply Htext Hne Hparse.
  exists (map_indexed (toCourse now) rawData). split; [|split; [|split]].
  - unfold parseTranscriptImage, bind, try_catch, generateContent, getAiClient, lift.
    rewrite Hkey. simpl. rewrite Hreply, Htext.
    apply String.eqb_neq in Hne. rewrite Hne, Hparse. reflexivity.
  - apply map_from_length.
  - intros i c Hnth. eexists. split.
    + unfold map_indexed. apply map_from_nth. exact Hnth.
    + apply toCourse_defaults.
  - apply map_from_ids_NoDup.
Qed.

End Transcript.

Section ServiceResults.

Context {N : JsNumber}.
Variable JSON_parse_analysis : string -> Settled AIAnalysisResult.
Variable URL_hostname : string -> Settled string.


Lemma getAiClient_missing (w : World) (n : nat) :
  truthy_string (API_KEY w) = false ->
  getAiClient w n = (Rejected (Error "API Key not found"), n).
Proof. intros H. unfold getAiClient. rewrite H. reflexivity. Qed.

Lemma getAiClient_present (w : World) (n : nat) :
  truthy_string (API_KEY w) = true ->
  getAiClient w n = (Fulfilled tt, n).
Proof. intros H. unfold getAiClient. rewrite H. reflexivity. Qed.

(** A chunk with a uri and a title whose uri is no URL makes the loop throw. *)
Lemma collectResources_throws (chunks : list GroundingChunk) (acc : list StudyResource)
    (n : nat) (u : string) (e : JsError) :
  In u (chunk_uris chunks) -> URL_hostname u = Rejected e ->
  exists e', collectResources URL_hostname chunks acc n = (Rejected e', n).
Proof.
  revert acc. induction chunks as [|chunk rest IH]; intros acc Hin Hu; [destruct Hin|].
  simpl in Hin. apply in_app_or in Hin.
  simpl. unfold bind, pushChunk.
  destruct (web chunk) as [[[uri|] [title|]]|]; simpl in *;
    try (destruct Hin as [[]|Hin]; apply (IH _ Hin Hu)).
  destruct (negb (String.eqb uri "") && negb (String.eqb title "")) eqn:Hv; simpl in *.
  - unfold bind, lift. destruct (URL_hostname uri) as [h|e0] eqn:Hh; simpl.
    + destruct Hin as [[Heq|[]]|Hin]; [congruence|]. apply (IH _ Hin Hu).
    + eexists. reflexivity.
  - destruct Hin as [[]|Hin]. apply (IH _ Hin Hu).
Qed.

(** C6. With a credential, [generateAcademicStrategy] and
    [findStudyResources] make one request and return: a failed request, an
    empty or unparsable text, or a uri that is no URL, give the fixed
    fallback and the empty list.  Without a credential both reject with
    "API Key not found" before any request, and the handlers that call
    them set the generic error message. *)
Theorem failures_inside_the_try_are_absorbed (w : World) (n : nat) :
  (truthy_string (API_KEY w) = true ->
   (exists r, generateAcademicStrategy JSON_parse_analysis w n = (Fulfilled r, S n) /\
      ((exists e, reply w n = Rejected e) -> r = fallbackAnalysis) /\
      (forall resp, reply w n = Fulfilled resp ->
         truthy_string (text resp) = false -> r = fallbackAnalysis) /\
      (forall resp t e, reply w n = Fulfilled resp -> text resp = Some t ->
         JSON_parse_analysis t = Rejected e -> r = fallbackAnalysis)) /\
   (exists rs, findStudyResources URL_hostname w n = (Fulfilled rs, S n) /\
      ((exists e, reply w n = Rejected e) -> rs = []) /\
      (forall resp chunks u e, reply w n = Fulfilled resp ->
         groundingChunks resp = Some chunks ->
         In u (chunk_uris chunks) -> URL_hostname u = Rejected e -> rs = []))) /\
  (truthy_string (API_KEY w) = false ->
   generateAcademicStrategy JSON_parse_analysis w n = (Rejected (Error "API Key not found"), n) /\
   findStudyResources URL_hostname w n = (Rejected (Error "API Key not found"), n) /\
   (forall ui,
      status (handleGenerateStrategy JSON_parse_analysis w n ui) = error /\
      errorMessage (handleGenerateStrategy JSON_parse_analysis w n ui)
        = Some "Strategy generation failed."%string) /\
   (forall ui course, c_title course <> ""%string ->
      status (handleFindResources URL_hostname w n course ui) = error /\
      errorMessage (handleFindResources URL_hostname w n course ui)
        = Some "Could not find resources."%string)).
Proof.
  split.
  - intros Hkey. split.
    + unfold generateAcademicStrategy, bind, try_catch, generateContent.
      rewrite (getAiClient_present w n Hkey).
      destruct (reply w n) as [resp|e] eqn:Hr.
      * destruct (text resp) as [t|] eqn:Ht.
        -- destruct (String.eqb t "") eqn:Hempty.
           ++ eexists. split; [reflexivity|]. repeat split; intros; reflexivity.
           ++ unfold lift. destruct (JSON_parse_analysis t) as [a|e] eqn:Hp.
              ** eexists. split; [reflexivity|]. repeat split.
                 --- intros [e He]. discriminate.
                 --- intros resp' Hresp Hfalsy. injection Hresp as <-.
                     rewrite Ht in Hfalsy. simpl in Hfalsy. rewrite Hempty in Hfalsy. discriminate.
                 --- intros resp' t' e Hresp Ht' Hp'. injection Hresp as <-. congruence.
              ** eexists. split; [reflexivity|]. repeat split; intros; reflexivity.
        -- eexists. split; [reflexivity|]. repeat split; intros; reflexivity.
      * eexists. split; [reflexivity|]. repeat split; intros; reflexivity.
    + unfold findStudyResources, bind, try_catch, generateContent.
      rewrite (getAiClient_present w n Hkey).
      destruct (reply w n) as [resp|e] eqn:Hr.
      * destruct (groundingChunks resp) as [chunks|] eqn:Hc.
        -- destruct (collectResources URL_hostname chunks [] (S n)) as [[rs|e] n'] eqn:Hcol.
           ++ pose proof (collectResources_counter URL_hostname chunks [] (S n)) as Hn.
              rewrite Hcol in Hn. simpl in Hn. subst n'.
              eexists. split; [reflexivity|]. split; [intros [e He]; discriminate|].
              intros resp' chunks' u e Hresp Hch Hin Hu. injection Hresp as <-.
              assert (chunks' = chunks) by congruence. subst chunks'.
              destruct (@collectResources_throws chunks [] (S n) u e Hin Hu) as [e2 He2].
              congruence.
           ++ pose proof (collectResources_counter URL_hostname chunks [] (S n)) as Hn.
              rewrite Hcol in Hn. simpl in Hn. subst n'.
              eexists. split; [reflexivity|]. split; intros; reflexivity.
        -- eexists. split; [reflexivity|]. split; [intros [e He]; discriminate|].
           intros resp' chunks u e Hresp Hch. injection Hresp as <-. congruence.
      * eexists. split; [reflexivity|]. split; intros; reflexivity.
  - intros Hkey.
    assert (Hs : generateAcademicStrategy JSON_parse_analysis w n = (Rejected (Error "API Key not found"), n)).
    { unfold generateAcademicStrategy, bind. rewrite (getAiClient_missing w n Hkey). reflexivity. }
    assert (Hr : findStudyResources URL_hostname w n = (Rejected (Error "API Key not found"), n)).
    { unfold findStudyResources, bind. rewrite (getAiClient_missing w n Hkey). reflexivity. }
    split; [exact Hs|]. split; [exact Hr|]. split.
    + intros ui. unfold handleGenerateStrategy. rewrite Hs. simpl. auto.
    + intros ui course Ht. unfold handleFindResources.
      apply String.eqb_neq in Ht. rewrite Ht, Hr. simpl. auto.
Qed.

End ServiceResults.

(** * The program on the sample data *)

Local Open Scope string_scope.

(** 3.66 on the 4.0 scale and 1.82 on the 5.0 scale, which has no "B+"
    and no "A-". *)
Example cgpa_sample :
  cgpa sampleSemesters Standard4 = 183 # 50 /\ cgpa sampleSemesters Standard5 = 91 # 50.
Proof. split; vm_compute; reflexivity. Qed.

Example chartData_sample :
  map (@cp_cgpa exact) (chartData sampleSemesters Standard4) = [73 # 20; 183 # 50].
Proof. vm_compute. reflexivity. Qed.

Example toFixed2_sample :
  map Q_toFixed2 [1985 # 1000; - (5 # 1000); 1 # 3; - (1 # 3); 0]
  = [199 # 100; - (1 # 100); 33 # 100; - (33 # 100); 0].
Proof. vm_compute. reflexivity. Qed.

(** On doubles the tie is computed as 3.9249999999999998 and rounds down
    to 3.92; on exact numbers it rounds up to 3.93. *)
Example cgpa_tie :
  cgpa (tieSemesters double) Standard4 = double_lit (392 # 100) /\
  cgpa (tieSemesters exact) Standard4 = 393 # 100.
Proof. split; vm_compute; reflexivity. Qed.

Example toFixed2_double_sample :
  map (fun q => double_toFixed2 (double_lit q)) [1005 # 1000; 1 # 8; - (1 # 8); 1 # 3]
  = map double_lit [1; 13 # 100; - (13 # 100); 33 # 100].
Proof. vm_compute. reflexivity. Qed.

Example parseInt_sample :
  map parseInt ["-3"; "12abc"; ""; "  42"; "0x1f"; "1e3"; "-"; "2.5"]
  = [Some (-3)%Z; Some 12%Z; None; Some 42%Z; Some 31%Z; Some 1%Z; None; Some 2%Z].
Proof. vm_compute. reflexivity. Qed.

(** White space of one, two and three bytes before the digits: a tab,
    U+00A0 and U+2028. *)
Example parseInt_white_space_sample :
  parseInt (String (ascii_of_nat 9)
             (String (ascii_of_nat 194) (String (ascii_of_nat 160)
               (String (ascii_of_nat 226) (String (ascii_of_nat 128) (String (ascii_of_nat 168)
                 "42"))))))
  = Some 42%Z.
Proof. vm_compute. reflexivity. Qed.

(** On doubles an integer beyond 2^53 is stored as the nearest double. *)
Example parseInt_or_0_double_sample :
  parseInt_or_0 (N := double) "9007199254740993" = double_lit 9007199254740992 /\
  parseInt_or_0 (N := double) "-0" = double_lit 0 /\
  parseInt_or_0 (N := exact) "9007199254740993" = 9007199254740993.
Proof. repeat split; vm_compute; reflexivity. Qed.

(** A transcript is uploaded on the 4.0 scale and the scale is switched
    before the service answers: the imported semester carries the GPA of
    the 4.0 scale, 4, while the GPA of its courses on the 5.0 scale now in
    force is 5. *)
Example import_after_scale_switch :
  let courses := [ sampleCourse "parsed-9-0" "CS101" "A" 3 ] in
  let st := run [ SetMode Standard5; ImportTranscript 1 9 courses ] in
  mode st = Standard5 /\
  map (fun sem => (s_id sem, s_gpa sem)) (semesters st) = [ ("sem-1", 0); ("sem-import-9", 4) ] /\
  calculateSemesterGPA Standard5 courses = 5 /\
  semesters (run [ SetMode Standard5; ImportTranscript 0 9 courses ])
    = (semesters (run [ SetMode Standard5 ]) ++
       [ {| s_id := "sem-import-9"; s_name := "Imported Transcript";
            s_courses := courses; s_gpa := 5 |} ])%list.
Proof. repeat split. Qed.

Example findStudyResources_sample :
  findStudyResources sampleHostname online 0%nat =
  (Fulfilled
     [ {| r_title := "Notes"; r_uri := "https://www.a.edu/cs101"; r_source := "a.edu" |};
       {| r_title := "Lectures"; r_uri := "https://b.org/intro"; r_source := "b.org" |} ],
   1%nat).
Proof. vm_compute. reflexivity. Qed.

Example parseTranscriptImage_sample :
  parseTranscriptImage sampleParse online (fun i => 1000 + i)%nat 0%nat =
  (Fulfilled
     [ {| c_id := "parsed-1000-0"; c_code := "CS101"; c_title := "Programming";
          c_credits := 4 : Q; c_grade := "A" |};
       {| c_id := "parsed-1001-1"; c_code := "MATH101"; c_title := "Parsed Course";
          c_credits := 3 : Q; c_grade := "C" |} ],
   1%nat).
Proof. vm_compute. reflexivity. Qed.

(** C4. In the session [scaleSwitchSession], which ends with
    [handleUpdateCourses] on the second semester, the first semester keeps
    the [gpa] 4 computed on the 4.0 scale, while [calculateSemesterGPA] of
    its courses is 5 on the 5.0 scale now in force. *)
Theorem cached_gpa_stale_after_scale_switch :
  let st := run scaleSwitchSession in
  mode st = Standard5 /\
  exists sem,
    In sem (semesters st) /\ s_id sem = "sem-1" /\
    s_gpa sem = 4 /\
    calculateSemesterGPA (mode st) (s_courses sem) = 5 /\
    ~ gpa_fresh (mode st) sem.
Proof.
  split; [reflexivity|].
  eexists. split; [left; reflexivity|].
  split; [reflexivity|]. split; [reflexivity|]. split; [reflexivity|].
  unfold gpa_fresh. vm_compute. discriminate.
Qed.

(** C5. In the session [negativeCreditsSession], typing "-3" in the
    credits input leaves a course with credits -3 in the state; and a
    transcript element with credits -2 becomes a course with credits -2. *)
Theorem credits_negative_after_edit :
  let st := run negativeCreditsSession in
  (exists sem c, In sem (semesters st) /\ In c (s_courses sem) /\
                 c_credits c = (-3 # 1) /\ c_credits c < 0) /\
  (forall now i,
     c_credits (toCourse (N := exact) now
                  {| raw_code := Some "CS101"; raw_title := None;
                     raw_credits := Some (-2 # 1); raw_grade := Some "A" |} i) < 0).
Proof.
  split.
  - eexists. eexists. split; [left; reflexivity|]. split; [left; reflexivity|].
    split; reflexivity.
  - intros now i. reflexivity.
Qed.

(** C6 does not extend to a missing credential: both functions then reject
    with "API Key not found" instead of returning the fallback or the
    empty list. *)
Lemma missing_credential_is_thrown :
  generateAcademicStrategy sampleParseAnalysis offline 0%nat
    = (Rejected (Error "API Key not found"), 0%nat) /\
  findStudyResources sampleHostname offline 0%nat
    = (Rejected (Error "API Key not found"), 0%nat) /\
  fst (generateAcademicStrategy sampleParseAnalysis offline 0%nat) <> Fulfilled fallbackAnalysis /\
  fst (findStudyResources sampleHostname offline 0%nat) <> Fulfilled [].
Proof.
  split; [reflexivity|]. split; [reflexivity|]. split; vm_compute; discriminate.
Qed.


(** * The theorems at the sample data *)

Lemma getPoint_unrecognized_witness :
  ~ In "E" (map g_grade (scaleOf (N := exact) Standard4)) /\
  getPoint (N := exact) "E" Standard4 = 0.
Proof.
  assert (H : ~ In "E" (map g_grade (scaleOf (N := exact) Standard4))).
  { simpl. intuition discriminate. }
  split; [exact H|].
  exact (getPoint_unrecognized (N := exact) "E" Standard4 H).
Defined.

Lemma chartData_last_is_cgpa_witness :
  sampleSemesters <> [] /\
  cp_cgpa (last (chartData sampleSemesters Standard4)
             {| cp_name := ""; cp_semGPA := 0; cp_cgpa := 0 |})
  = cgpa sampleSemesters Standard4.
Proof.
  assert (H : sampleSemesters <> []) by discriminate.
  split; [exact H|].
  exact (proj2 (@chartData_last_is_cgpa exact sampleSemesters Standard4
                  {| cp_name := ""; cp_semGPA := 0; cp_cgpa := 0 |} H)).
Defined.


Lemma parsed_courses_defaults_and_ids_witness :
  exists courses,
    parseTranscriptImage sampleParse online (fun i => 1000 + i)%nat 0%nat
      = (Fulfilled courses, 1%nat) /\
    List.length courses = List.length sampleRawCourses /\
    (forall i c, nth_error sampleRawCourses i = Some c ->
       exists course, nth_error courses i = Some course /\ defaults_filled c course) /\
    NoDup (map c_id courses).
Proof.
  apply (parsed_courses_defaults_and_ids sampleParse online (fun i => 1000 + i)%nat 0%nat
           (resp := sampleResponse) (t := "[ two courses ]") (rawData := sampleRawCourses)).
  - reflexivity.
  - reflexivity.
  - reflexivity.
  - discriminate.
  - reflexivity.
Defined.

Lemma failures_inside_the_try_are_absorbed_witness :
  (truthy_string (API_KEY online) = true /\
   generateAcademicStrategy sampleParseAnalysis online 0%nat
     = (Fulfilled fallbackAnalysis, 1%nat)) /\
  (truthy_string (API_KEY offline) = false /\
   generateAcademicStrategy sampleParseAnalysis offline 0%nat
     = (Rejected (Error "API Key not found"), 0%nat)).
Proof.
  split; (split; [reflexivity|]).
  - destruct (proj1 (failures_inside_the_try_are_absorbed (N := exact)
                       sampleParseAnalysis sampleHostname online 0%nat) eq_refl)
      as [[r [Hrun [_ [_ Hparse]]]] _].
    rewrite Hrun. f_equal. f_equal.
    exact (Hparse sampleResponse "[ two courses ]" (Error "Unexpected token")
             eq_refl eq_refl eq_refl).
  - exact (proj1 (proj2 (failures_inside_the_try_are_absorbed (N := exact)
                           sampleParseAnalysis sampleHostname offline 0%nat) eq_refl)).
Defined.

(** * More results *)

Local Close Scope string_scope.

(** ** The scales *)

Section Scales.
Context {N : JsNumber}.

Lemma scale_grades_distinct (mode : CalculationMode) : NoDup (map g_grade (scaleOf mode)).
Proof.
  destruct mode; simpl;
    repeat (constructor; [simpl; intuition discriminate|]); constructor.
Qed.

Lemma find_first_of_distinct (grade : string) (scale : list GradeScaleItem) (item : GradeScaleItem) :
  NoDup (map g_grade scale) -> In item scale -> g_grade item = grade ->
  find (fun s => String.eqb (g_grade s) grade) scale = Some item.
Proof.
  induction scale as [|s rest IH]; intros Hnd Hin Hg; [destruct Hin|].
  simpl in *. inversion Hnd as [|? ? Hnot Hrest]; subst.
  destruct Hin as [->|Hin].
  - rewrite String.eqb_refl. reflexivity.
  - destruct (String.eqb (g_grade s) (g_grade item)) eqn:Heq.
    + apply String.eqb_eq in Heq. exfalso. apply Hnot. rewrite Heq. apply in_map, Hin.
    + apply IH; auto.
Qed.

(** X1. The point [getPoint] returns for a grade of the selected scale is
    the point the scale lists for it. *)
Theorem getPoint_listed (mode : CalculationMode) (item : GradeScaleItem) :
  In item (scaleOf mode) -> getPoint (g_grade item) mode = g_point item.
Proof.
  intros Hin. unfold getPoint.
  rewrite (@find_first_of_distinct (g_grade item) (scaleOf mode) item
             (scale_grades_distinct mode) Hin eq_refl). reflexivity.
Qed.

End Scales.

(** ** The aggregates *)

Section Aggregates.
Context {N : JsNumber}.
Local Open Scope js_scope.

(** X6. The CGPA reads the sequence of all courses only: two lists of
    semesters with the same courses in the same order have the same CGPA. *)
Theorem cgpa_depends_on_courses_only (sems sems' : list Semester) (mode : CalculationMode) :
  allCourses sems = allCourses sems' -> cgpa sems mode = cgpa sems' mode.
Proof. intros H. rewrite !cgpa_unfold, H. reflexivity. Qed.

Lemma allCourses_app (a b : list Semester) : allCourses (a ++ b) = (allCourses a ++ allCourses b)%list.
Proof. unfold allCourses. rewrite map_app, concat_app. reflexivity. Qed.

Lemma allCourses_rename (id val : string) (sems : list Semester) :
  allCourses
    (map (fun s => if String.eqb (s_id s) id
                   then {| s_id := s_id s; s_name := val; s_courses := s_courses s; s_gpa := s_gpa s |}
                   else s) sems) = allCourses sems.
Proof.
  unfold allCourses. rewrite map_map. f_equal. apply map_ext.
  intros s. destruct (String.eqb (s_id s) id); reflexivity.
Qed.

(** X7. Adding an empty semester and renaming a semester leave the CGPA
    unchanged. *)
Theorem cgpa_unchanged_by_bookkeeping (st : AppState) (now : nat) (id val : string) :
  cgpa (semesters (addSemester now st)) (mode st) = cgpa (semesters st) (mode st) /\
  cgpa (semesters (renameSemester id val st)) (mode st) = cgpa (semesters st) (mode st).
Proof.
  split; rewrite !cgpa_unfold; simpl.
  - rewrite allCourses_app. unfold allCourses at 2 4 6. simpl. rewrite !app_nil_r. reflexivity.
  - rewrite allCourses_rename. reflexivity.
Qed.

(** The value [chartData] stores for running totals. *)
Lemma chartData_from_nth (mode : CalculationMode) (sems : list Semester) (acc : num * num)
    (i : nat) (sem : Semester) :
  nth_error sems i = Some sem ->
  exists p,
    nth_error (chartData_from mode acc sems) i = Some p /\
    cp_name p = s_name sem /\ cp_semGPA p = s_gpa sem /\
    cp_cgpa p =
      (let '(pts, crs) := fold_left (accumulate mode) (allCourses (firstn (S i) sems)) acc in
       toFixed2 (if eq0 crs then lit 0 else pts / crs)).
Proof.
  revert acc i. induction sems as [|s rest IH]; intros acc i Hnth; [destruct i; discriminate|].
  simpl chartData_from.
  destruct (fold_left (accumulate mode) (s_courses s) acc) as [p c] eqn:Hacc.
  destruct i as [|i].
  - simpl in Hnth. injection Hnth as <-. eexists. split; [reflexivity|].
    simpl. unfold allCourses. simpl. rewrite app_nil_r, Hacc. auto.
  - simpl in Hnth. destruct (IH (p, c) i Hnth) as [q [Hq [Hn [Hg Hc]]]].
    exists q. split; [exact Hq|]. split; [exact Hn|]. split; [exact Hg|].
    rewrite Hc. change (firstn (S (S i)) (s :: rest)) with (s :: firstn (S i) rest).
    unfold allCourses at 2. simpl. rewrite fold_left_app, Hacc. reflexivity.
Qed.

(** X8. The i-th entry of [chartData] carries the name and the cached GPA of
    the i-th semester, and the CGPA of the semesters up to it. *)
Theorem chartData_entries (sems : list Semester) (mode : CalculationMode)
    (i : nat) (sem : Semester) :
  nth_error sems i = Some sem ->
  exists p,
    nth_error (chartData sems mode) i = Some p /\
    cp_name p = s_name sem /\ cp_semGPA p = s_gpa sem /\
    cp_cgpa p = cgpa (firstn (S i) sems) mode.
Proof.
  intros Hnth. unfold chartData.
  destruct (chartData_from_nth mode sems (lit 0, lit 0) i Hnth) as [p [Hp [Hn [Hg Hc]]]].
  exists p. split; [exact Hp|]. split; [exact Hn|]. split; [exact Hg|].
  rewrite Hc, cgpa_unfold, fold_accumulate.
  fold (pointTotal mode (allCourses (firstn (S i) sems))).
  fold (creditTotal (allCourses (firstn (S i) sems))).
  destruct (eq0 (creditTotal (allCourses (firstn (S i) sems)))).
  - apply toFixed2_lit0.
  - reflexivity.
Qed.

(** The GPA reads the grade and the credits of each course, nothing else. *)
Lemma calculateSemesterGPA_reads (mode : CalculationMode) (cs cs' : list Course) :
  map gradeAndCredits cs = map gradeAndCredits cs' ->
  calculateSemesterGPA mode cs = calculateSemesterGPA mode cs'.
Proof.
  intros H.
  assert (Hlen : List.length cs = List.length cs').
  { rewrite <- (length_map gradeAndCredits cs), H. apply length_map. }
  assert (Hp : forall a,
    fold_left (fun sum c => sum + getPoint (c_grade c) mode * c_credits c) cs a =
    fold_left (fun sum c => sum + getPoint (c_grade c) mode * c_credits c) cs' a).
  { clear Hlen. revert cs' H. induction cs as [|c cs IH]; intros [|c' cs'] H a;
      try discriminate; [reflexivity|].
    simpl in *. injection H as Hg Hc Hrest. unfold gradeAndCredits in *.
    rewrite Hg, Hc. apply IH. exact Hrest. }
  assert (Hc : forall a,
    fold_left (fun sum c => sum + c_credits c) cs a =
    fold_left (fun sum c => sum + c_credits c) cs' a).
  { clear Hlen Hp. revert cs' H. induction cs as [|c cs IH]; intros [|c' cs'] H a;
      try discriminate; [reflexivity|].
    simpl in *. injection H as Hg Hc Hrest. rewrite Hc. apply IH. exact Hrest. }
  unfold calculateSemesterGPA. rewrite Hlen, Hp, Hc. reflexivity.
Qed.

(** X9. Editing the code or the title of a course does not change the GPA. *)
Theorem gpa_unchanged_by_code_and_title (mode : CalculationMode) (courses : list Course)
    (id value : string) :
  calculateSemesterGPA mode (handleChange courses id (ChangeCode value))
    = calculateSemesterGPA mode courses /\
  calculateSemesterGPA mode (handleChange courses id (ChangeTitle value))
    = calculateSemesterGPA mode courses.
Proof.
  split; apply calculateSemesterGPA_reads; unfold handleChange; rewrite map_map;
    apply map_ext; intros c; destruct (String.eqb (c_id c) id); reflexivity.
Qed.

(** X11. In a session that never switches the scale, the mode stays
    [Standard4] and every cached GPA is the GPA of its courses. *)
Theorem gpa_fresh_while_scale_is_kept (actions : list Action) :
  forallb keepsMode actions = true ->
  mode (run actions) = Standard4 /\
  forall sem, In sem (semesters (run actions)) -> gpa_fresh Standard4 sem.
Proof.
  unfold run.
  assert (Hgen : forall past st,
    forallb keepsMode actions = true ->
    (forall m, In m past -> m = mode st) ->
    (forall sem, In sem (semesters st) -> gpa_fresh (mode st) sem) ->
    mode (run_from past st actions) = mode st /\
    forall sem, In sem (semesters (run_from past st actions)) -> gpa_fresh (mode st) sem).
  { induction actions as [|a rest IH]; intros past st Hk Hpast Hinv; simpl in *.
    - split; [reflexivity|exact Hinv].
    - apply andb_true_iff in Hk. destruct Hk as [Ha Hrest].
      assert (Hns : forall m, a <> SetMode m) by (intros m ->; discriminate).
      pose proof (step_mode past st Hns) as Hm.
      assert (Hclosure : handlerMode past st a = mode st).
      { destruct a; try reflexivity. simpl. apply modeBack_constant, Hpast. }
      destruct (IH (mode st :: past) (step past st a) Hrest) as [Hmode Hfresh].
      + rewrite Hm. intros m [Hhere|Hin]; [congruence|apply Hpast, Hin].
      + apply step_preserves_fresh; assumption.
      + rewrite Hm in *. split; assumption. }
  intros Hk. apply (Hgen [] initialState Hk).
  - intros m [].
  - intros sem [<-|[]]. reflexivity.
Qed.

End Aggregates.

(** ** The semester handlers *)

Section Handlers.
Context {N : JsNumber}.
Local Open Scope nat_scope.

Lemma map_unless_id (A : Type) (p : A -> bool) (f : A -> A) (l : list A) :
  (forall x, In x l -> p x = false) -> map (fun x => if p x then f x else x) l = l.
Proof.
  induction l as [|x l IH]; intros H; simpl; [reflexivity|].
  rewrite (H x (or_introl eq_refl)), IH; [reflexivity|].
  intros y Hy. apply H. right. exact Hy.
Qed.

Lemma filter_keeps_all (A : Type) (p : A -> bool) (l : list A) :
  (forall x, In x l -> p x = true) -> filter p l = l.
Proof.
  induction l as [|x l IH]; intros H; simpl; [reflexivity|].
  rewrite (H x (or_introl eq_refl)), IH; [reflexivity|].
  intros y Hy. apply H. right. exact Hy.
Qed.

(** X12. [handleUpdateCourses] with an id no semester has leaves the state
    unchanged. *)
Theorem handleUpdateCourses_unknown_semester (semId : string) (updated : list Course)
    (st : AppState) :
  (forall sem, In sem (semesters st) -> s_id sem <> semId) ->
  handleUpdateCourses semId updated st = st.
Proof.
  intros Hnone. destruct st as [m sems]. unfold handleUpdateCourses. simpl in *. f_equal.
  apply (map_unless_id (fun sem => String.eqb (s_id sem) semId)).
  intros sem Hin. apply String.eqb_neq, Hnone, Hin.
Qed.

(** X14. Removing the semester [addSemester] has just added restores the
    state, provided its id was not in use. *)
Theorem addSemester_then_removeSemester (now : nat) (st : AppState) :
  (forall sem, In sem (semesters st) -> s_id sem <> ("sem-" ++ show_nat now)%string) ->
  removeSemester ("sem-" ++ show_nat now) (addSemester now st) = st.
Proof.
  intros Hfree. destruct st as [m sems]. unfold removeSemester, addSemester. simpl in *.
  f_equal. rewrite filter_app. simpl. rewrite String.eqb_refl. simpl. rewrite app_nil_r.
  apply filter_keeps_all. intros sem Hin.
  apply negb_true_iff, String.eqb_neq, Hfree, Hin.
Qed.

Lemma show_nat_not_import (a b : nat) : show_nat a <> ("import-" ++ show_nat b)%string.
Proof.
  intros H. pose proof (show_nat_dashless a) as Hd. rewrite H in Hd.
  simpl in Hd. decompose [and] Hd. congruence.
Qed.

Lemma fresh_added_id (used : list nat) (sems : list Semester) (now : nat) :
  ids_from used sems -> ~ In now used -> now <> 1 ->
  ~ In ("sem-" ++ show_nat now)%string (map s_id sems).
Proof.
  intros Hids Hnew H1 Hin. apply in_map_iff in Hin. destruct Hin as [sem [Hid Hsem]].
  destruct (Hids sem Hsem) as [He|[n [Hn [He|He]]]]; rewrite He in Hid.
  - injection Hid as Hid. apply H1. apply show_nat_inj. symmetry. exact Hid.
  - injection Hid as Hid. apply show_nat_inj in Hid. congruence.
  - injection Hid as Hid. symmetry in Hid. exact (show_nat_not_import now n Hid).
Qed.

Lemma fresh_imported_id (used : list nat) (sems : list Semester) (now : nat) :
  ids_from used sems -> ~ In now used ->
  ~ In ("sem-import-" ++ show_nat now)%string (map s_id sems).
Proof.
  intros Hids Hnew Hin. apply in_map_iff in Hin. destruct Hin as [sem [Hid Hsem]].
  destruct (Hids sem Hsem) as [He|[n [Hn [He|He]]]]; rewrite He in Hid.
  - discriminate.
  - injection Hid as Hid. exact (show_nat_not_import n now Hid).
  - injection Hid as Hid. apply show_nat_inj in Hid. congruence.
Qed.

Lemma ids_from_more (used used' : list nat) (sems : list Semester) :
  incl used used' -> ids_from used sems -> ids_from used' sems.
Proof.
  intros Hincl Hids sem Hsem. destruct (Hids sem Hsem) as [He|[n [Hn He]]]; [left; exact He|].
  right. exists n. split; [apply Hincl, Hn|exact He].
Qed.

Lemma removal_keeps_ids_distinct (keep : Semester -> bool) (sems : list Semester) :
  NoDup (map s_id sems) -> NoDup (map s_id (filter keep sems)).
Proof.
  induction sems as [|sem rest IH]; simpl; intros Hnd; [exact Hnd|].
  apply NoDup_cons_iff in Hnd. destruct Hnd as [Hfresh Hrest].
  destruct (keep sem); [|exact (IH Hrest)].
  simpl. apply NoDup_cons_iff. split; [|exact (IH Hrest)].
  intros Hin. apply Hfresh. apply in_map_iff in Hin. destruct Hin as [other [Hid Hother]].
  apply filter_In in Hother. rewrite <- Hid. apply in_map. exact (proj1 Hother).
Qed.

Lemma NoDup_snoc (A : Type) (l : list A) (x : A) :
  NoDup l -> ~ In x l -> NoDup (l ++ [x]).
Proof.
  intros Hnd Hx. apply NoDup_rev in Hnd. rewrite <- (rev_involutive (l ++ [x])).
  apply NoDup_rev. rewrite rev_app_distr. simpl. constructor; [|exact Hnd].
  intros Hin. apply Hx. apply in_rev. exact Hin.
Qed.

Lemma step_unique_ids (used : list nat) (past : list CalculationMode) (st : AppState)
    (a : Action) :
  NoDup (map s_id (semesters st)) -> ids_from used (semesters st) ->
  NoDup (semesterClock a ++ used) -> ~ In 1 (semesterClock a) ->
  NoDup (map s_id (semesters (step past st a))) /\
  ids_from (semesterClock a ++ used) (semesters (step past st a)).
Proof.
  intros Hnd Hids Hclock H1.
  assert (Hweak : ids_from (semesterClock a ++ used) (semesters st)).
  { apply (ids_from_more (used := used)); [apply incl_appr, incl_refl|exact Hids]. }
  destruct a as [m|semId cs|now|id|id val|chosen now cs]; simpl in *.
  - split; assumption.
  - assert (Hsame : map s_id
        (map (fun sem => if String.eqb (s_id sem) semId
                         then {| s_id := s_id sem; s_name := s_name sem; s_courses := cs;
                                 s_gpa := calculateSemesterGPA (mode st) cs |}
                         else sem) (semesters st)) = map s_id (semesters st)).
    { rewrite map_map. apply map_ext. intros sem.
      destruct (String.eqb (s_id sem) semId); reflexivity. }
    split; [rewrite Hsame; exact Hnd|].
    intros sem Hin. apply in_map_iff in Hin. destruct Hin as [old [Heq Hold]].
    destruct (String.eqb (s_id old) semId); subst sem; apply (Hids old Hold).
  - inversion Hclock as [|? ? Hnew Hrest]; subst. split.
    + rewrite map_app. simpl. apply NoDup_snoc; [exact Hnd|].
      apply (fresh_added_id Hids Hnew). intros ->. apply H1. left. reflexivity.
    + intros sem Hin. apply in_app_or in Hin. destruct Hin as [Hin|[<-|[]]].
      * apply (Hweak sem Hin).
      * right. exists now. split; [left; reflexivity|left; reflexivity].
  - split; [apply removal_keeps_ids_distinct, Hnd|].
    intros sem Hin. apply filter_In in Hin. apply (Hids sem (proj1 Hin)).
  - assert (Hsame : map s_id
        (map (fun s => if String.eqb (s_id s) id
                       then {| s_id := s_id s; s_name := val; s_courses := s_courses s;
                               s_gpa := s_gpa s |}
                       else s) (semesters st)) = map s_id (semesters st)).
    { rewrite map_map. apply map_ext. intros sem.
      destruct (String.eqb (s_id sem) id); reflexivity. }
    split; [rewrite Hsame; exact Hnd|].
    intros sem Hin. apply in_map_iff in Hin. destruct Hin as [old [Heq Hold]].
    destruct (String.eqb (s_id old) id); subst sem; apply (Hids old Hold).
  - unfold importTranscript. destruct (Nat.ltb 0 (List.length cs)); simpl in *.
    + inversion Hclock as [|? ? Hnew Hrest]; subst. split.
      * rewrite map_app. simpl. apply NoDup_snoc; [exact Hnd|].
        apply (@fresh_imported_id used (semesters st) now Hids Hnew).
      * intros sem Hin. apply in_app_or in Hin. destruct Hin as [Hin|[<-|[]]].
        -- apply (Hweak sem Hin).
        -- right. exists now. split; [left; reflexivity|right; reflexivity].
    + split; assumption.
Qed.

(** X15. When the clock readings that name the semesters of a session are
    pairwise distinct and none is 1, the semester ids are pairwise
    distinct. *)
Theorem semester_ids_unique (actions : list Action) :
  NoDup (flat_map semesterClock actions) -> ~ In 1 (flat_map semesterClock actions) ->
  NoDup (map s_id (semesters (run actions))).
Proof.
  unfold run.
  assert (Hgen : forall (past : list CalculationMode) (st : AppState) (used : list nat),
    NoDup (map s_id (semesters st)) -> ids_from used (semesters st) ->
    NoDup (rev (flat_map semesterClock actions) ++ used) ->
    ~ In 1 (flat_map semesterClock actions) ->
    NoDup (map s_id (semesters (run_from past st actions)))).
  { induction actions as [|a rest IH]; intros past st used Hnd Hids Hclock H1; simpl in *.
    - exact Hnd.
    - rewrite rev_app_distr, <- app_assoc in Hclock.
      assert (Hhere : NoDup (semesterClock a ++ used)).
      { apply NoDup_app_remove_l in Hclock.
        destruct a; simpl in *; try exact Hclock.
        destruct (Nat.ltb 0 (List.length parsedCourses)); exact Hclock. }
      destruct (@step_unique_ids used past st a Hnd Hids Hhere) as [Hnd' Hids'].
      { intros Hin. apply H1. apply in_or_app. left. exact Hin. }
      apply (IH (mode st :: past) (step past st a) (semesterClock a ++ used) Hnd' Hids').
      + assert (Hrev : rev (semesterClock a) = semesterClock a).
        { destruct a; simpl; try reflexivity.
          destruct (Nat.ltb 0 (List.length parsedCourses)); reflexivity. }
        rewrite Hrev in Hclock. exact Hclock.
      + intros Hin. apply H1. apply in_or_app. right. exact Hin. }
  intros Hnd H1. apply (Hgen [] initialState []).
  - simpl. constructor; [intros []|constructor].
  - intros sem [<-|[]]. left. reflexivity.
  - rewrite app_nil_r. apply NoDup_rev. exact Hnd.
  - exact H1.
Qed.

End Handlers.

Section OneSemester.
Context {N : JsNumber}.
Local Open Scope nat_scope.

Lemma map_at_unique_key (A : Type) (key : A -> string) (g : A -> A) (l : list A)
    (i : nat) (x : A) :
  NoDup (map key l) -> nth_error l i = Some x ->
  map (fun y => if String.eqb (key y) (key x) then g y else y) l
  = firstn i l ++ g x :: skipn (S i) l.
Proof.
  revert i. induction l as [|y l IH]; intros i Hnd Hnth; [destruct i; discriminate|].
  simpl in Hnd. inversion Hnd as [|? ? Hy Hl]; subst.
  destruct i as [|i]; simpl in *.
  - injection Hnth as ->. rewrite String.eqb_refl. f_equal.
    apply map_unless_id. intros z Hz. apply String.eqb_neq. intros Heq.
    apply Hy. rewrite <- Heq. apply in_map, Hz.
  - assert (Hne : String.eqb (key y) (key x) = false).
    { apply String.eqb_neq. intros Heq. apply Hy. rewrite Heq.
      apply in_map. apply nth_error_In with i. exact Hnth. }
    rewrite Hne. f_equal. apply IH; assumption.
Qed.

(** X13. When the semester ids are pairwise distinct, [handleUpdateCourses]
    replaces exactly the semester with the given id, in place. *)
Theorem handleUpdateCourses_replaces_one (st : AppState) (i : nat) (sem : Semester)
    (updated : list Course) :
  NoDup (map s_id (semesters st)) -> nth_error (semesters st) i = Some sem ->
  semesters (handleUpdateCourses (s_id sem) updated st) =
  firstn i (semesters st) ++
  {| s_id := s_id sem; s_name := s_name sem; s_courses := updated;
     s_gpa := calculateSemesterGPA (mode st) updated |}
  :: skipn (S i) (semesters st).
Proof.
  intros Hnd Hnth. unfold handleUpdateCourses. simpl.
  apply (@map_at_unique_key Semester s_id
           (fun y => {| s_id := s_id y; s_name := s_name y; s_courses := updated;
                        s_gpa := calculateSemesterGPA (mode st) updated |})
           (semesters st) i sem Hnd Hnth).
Qed.

End OneSemester.

(** ** Course editing *)

Section Editing.
Context {N : JsNumber}.
Local Open Scope nat_scope.

(** X16. [handleChange] keeps the ids, the number and the order of the
    courses, keeps every course with another id, and changes nothing when
    no course has the id. *)
Theorem handleChange_keeps_the_list_shape (courses : list Course) (id : string) (ch : FieldChange) :
  map c_id (handleChange courses id ch) = map c_id courses /\
  List.length (handleChange courses id ch) = List.length courses /\
  (forall c, In c courses -> c_id c <> id -> In c (handleChange courses id ch)) /\
  ((forall c, In c courses -> c_id c <> id) -> handleChange courses id ch = courses).
Proof.
  unfold handleChange. split; [|split; [|split]].
  - rewrite map_map. apply map_ext. intros c.
    destruct (String.eqb (c_id c) id); [destruct ch|]; reflexivity.
  - apply length_map.
  - intros c Hin Hne. apply in_map_iff. exists c. split; [|exact Hin].
    apply String.eqb_neq in Hne. rewrite Hne. reflexivity.
  - intros Hnone. apply (map_unless_id (fun c => String.eqb (c_id c) id)).
    intros c Hin. apply String.eqb_neq, Hnone, Hin.
Qed.

(** X17. Of two changes of the same field of the same course, the second is
    the one that stays. *)
Theorem handleChange_last_write_wins (courses : list Course) (id : string)
    (first second : FieldChange) :
  sameField first second = true ->
  handleChange (handleChange courses id first) id second = handleChange courses id second.
Proof.
  intros Hsame. unfold handleChange. rewrite map_map. apply map_ext. intros c.
  destruct (String.eqb (c_id c) id) eqn:Hid.
  - destruct first, second; try discriminate; simpl; rewrite Hid; reflexivity.
  - rewrite Hid. reflexivity.
Qed.

(** X18. With the scale of either mode, [handleAddCourse] never fails and
    returns the list with one course appended: id "new-" followed by the
    clock reading, empty code and title, 3 credits and the grade "A".
    Removing that course again restores the list, provided its id was not
    in use. *)
Theorem handleAddCourse_then_handleRemove (mode : CalculationMode) (courses : list Course)
    (now : nat) :
  let newCourse :=
    {| c_id := ("new-" ++ show_nat now)%string; c_code := ""; c_title := "";
       c_credits := lit 3; c_grade := "A" |} in
  handleAddCourse (scaleOf mode) courses now = Some (courses ++ [newCourse]) /\
  ((forall c, In c courses -> c_id c <> ("new-" ++ show_nat now)%string) ->
   handleRemove (courses ++ [newCourse]) ("new-" ++ show_nat now) = courses).
Proof.
  intros newCourse. split.
  - destruct mode; reflexivity.
  - intros Hfree. unfold handleRemove. rewrite filter_app. simpl.
    rewrite String.eqb_refl. simpl. rewrite app_nil_r.
    apply filter_keeps_all. intros c Hin. apply negb_true_iff, String.eqb_neq, Hfree, Hin.
Qed.

End Editing.

(** ** Decimal numerals and [parseInt] *)

Lemma parseDigits_numeral (d : Decimal.uint) (k : nat) :
  parseDigits 10 (NilEmpty.string_of_uint d) (Some (Z.of_nat k)) =
  Some (Z.of_nat (Nat.of_uint_acc d k)).
Proof.
  revert k. induction d; intros k; simpl NilEmpty.string_of_uint; simpl Nat.of_uint_acc;
    [reflexivity|..];
    rewrite Nat.tail_mul_spec; rewrite <- IHd; cbn -[Z.mul Z.add Z.of_nat Nat.mul digitValue];
    match goal with
    | |- context [digitValue 10 ?c] =>
        let v := eval vm_compute in (digitValue 10 c) in
        change (digitValue 10 c) with v
    end;
    cbv iota beta; f_equal; f_equal; lia.
Qed.

Lemma parseDigits_numeral_start (d : Decimal.uint) :
  d <> Decimal.Nil ->
  parseDigits 10 (NilEmpty.string_of_uint d) None = Some (Z.of_nat (Nat.of_uint d)).
Proof.
  intros Hne. unfold Nat.of_uint.
  destruct d; [contradiction|..]; simpl NilEmpty.string_of_uint; simpl Nat.of_uint_acc;
    rewrite <- parseDigits_numeral; reflexivity.
Qed.

(** A string that starts with an ASCII character other than white space
    has no leading white space. *)
Lemma trimStart_keeps (c : ascii) (s : string) :
  isWhiteSpace c = false -> Nat.ltb (nat_of_ascii c) 128 = true ->
  trimStart (String c s) = String c s.
Proof.
  intros Hws Hascii. apply Nat.ltb_lt in Hascii.
  assert (H2 : forall c2, isWhiteSpace2 c c2 = false).
  { intros c2. unfold isWhiteSpace2.
    destruct (Nat.eqb_spec (nat_of_ascii c) 194); [lia|reflexivity]. }
  assert (H3 : forall c2 c3, isWhiteSpace3 c c2 c3 = false).
  { intros c2 c3. unfold isWhiteSpace3.
    destruct (Nat.eqb_spec (nat_of_ascii c) 225); [lia|].
    destruct (Nat.eqb_spec (nat_of_ascii c) 226); [lia|].
    destruct (Nat.eqb_spec (nat_of_ascii c) 227); [lia|].
    destruct (Nat.eqb_spec (nat_of_ascii c) 239); [lia|]. reflexivity. }
  simpl. rewrite Hws. destruct s as [|c2 [|c3 s3]]; try reflexivity.
  - rewrite H2. reflexivity.
  - rewrite H2, H3. reflexivity.
Qed.

Lemma parseInt_numeral (d : Decimal.uint) :
  d <> Decimal.Nil ->
  parseInt (NilEmpty.string_of_uint d) = Some (Z.of_nat (Nat.of_uint d)).
Proof.
  intros Hne.
  assert (Hp : parseInt (NilEmpty.string_of_uint d) =
               match parseDigits 10 (NilEmpty.string_of_uint d) None with
               | Some v => Some (1 * v)%Z
               | None => None
               end).
  { destruct d as [|d'|d'|d'|d'|d'|d'|d'|d'|d'|d']; [contradiction|..];
      simpl NilEmpty.string_of_uint; unfold parseInt;
      rewrite trimStart_keeps by reflexivity; try reflexivity.
    destruct d'; reflexivity. }
  rewrite Hp, (parseDigits_numeral_start Hne). f_equal; lia.
Qed.

Lemma parseInt_negative_numeral (d : Decimal.uint) :
  d <> Decimal.Nil ->
  parseInt ("-" ++ NilEmpty.string_of_uint d) = Some (- Z.of_nat (Nat.of_uint d))%Z.
Proof.
  intros Hne.
  assert (Hp : parseInt ("-" ++ NilEmpty.string_of_uint d) =
               match parseDigits 10 (NilEmpty.string_of_uint d) None with
               | Some v => Some (-1 * v)%Z
               | None => None
               end).
  { change ("-" ++ NilEmpty.string_of_uint d)%string
      with (String "-" (NilEmpty.string_of_uint d)).
    unfold parseInt. rewrite trimStart_keeps by reflexivity.
    destruct d as [|d'|d'|d'|d'|d'|d'|d'|d'|d'|d']; [contradiction|..];
      try reflexivity.
    destruct d'; reflexivity. }
  rewrite Hp, (parseDigits_numeral_start Hne). f_equal; lia.
Qed.

Lemma to_uint_nonnil (n : nat) : Nat.to_uint n <> Decimal.Nil.
Proof.
  rewrite <- (Unsigned.of_to n) at 1. rewrite Unsigned.to_of.
  apply DecimalFacts.unorm_nonnil.
Qed.

(** [parseInt] reads the decimal numeral of a natural number back, and its
    negation when a minus sign precedes it. *)
Lemma parseInt_reads_decimal_numerals (n : nat) :
  parseInt (show_nat n) = Some (Z.of_nat n) /\
  parseInt ("-" ++ show_nat n) = Some (- Z.of_nat n)%Z.
Proof.
  unfold show_nat. split.
  - rewrite (parseInt_numeral (to_uint_nonnil n)). f_equal. f_equal. apply Unsigned.of_to.
  - rewrite (parseInt_negative_numeral (to_uint_nonnil n)). do 3 f_equal. apply Unsigned.of_to.
Qed.

(** X19. The credits input stores the number [parseInt] reads: for the
    decimal numeral of [n] the number [n] as the implementation represents
    it, for the numeral after a minus sign the number [- n], and 0 in
    place of a number that is falsy. *)
Theorem onCreditsChange_stores_what_parseInt_reads {N : JsNumber} (courses : list Course)
    (id : string) (n : nat) :
  let stored (z : Z) := if truthy (num_of_Z z) then num_of_Z z else lit 0 in
  onCreditsChange courses id (show_nat n)
    = handleChange courses id (ChangeCredits (stored (Z.of_nat n))) /\
  onCreditsChange courses id ("-" ++ show_nat n)
    = handleChange courses id (ChangeCredits (stored (- Z.of_nat n)%Z)).
Proof.
  intros stored. unfold onCreditsChange, parseInt_or_0.
  destruct (parseInt_reads_decimal_numerals n) as [H1 H2].
  rewrite H1, H2. split; reflexivity.
Qed.

(** ** The service and its callers *)

Section Calls.

Context {N : JsNumber}.
Variable JSON_parse_courses : string -> Settled (list RawCourse).
Variable JSON_parse_analysis : string -> Settled AIAnalysisResult.
Variable URL_hostname : string -> Settled string.
Local Open Scope nat_scope.

(** X20. [parseTranscriptImage] rejects without a request when the
    credential is missing; with a credential it makes one request, passes
    on the error of a failed request or of [JSON.parse], and returns no
    course for an empty text. *)
Theorem parseTranscriptImage_outcomes (w : World) (now : nat -> nat) (n : nat) :
  (truthy_string (API_KEY w) = false ->
   parseTranscriptImage JSON_parse_courses w now n
     = (Rejected (Error "API Key not found"), n)) /\
  (truthy_string (API_KEY w) = true ->
   (forall e, reply w n = Rejected e ->
      parseTranscriptImage JSON_parse_courses w now n = (Rejected e, S n)) /\
   (forall resp, reply w n = Fulfilled resp -> truthy_string (text resp) = false ->
      parseTranscriptImage JSON_parse_courses w now n = (Fulfilled [], S n)) /\
   (forall resp t e, reply w n = Fulfilled resp -> text resp = Some t -> t <> ""%string ->
      JSON_parse_courses t = Rejected e ->
      parseTranscriptImage JSON_parse_courses w now n = (Rejected e, S n))).
Proof.
  unfold parseTranscriptImage, bind, try_catch, generateContent, lift. split.
  - intros Hkey. rewrite (getAiClient_missing w n Hkey). reflexivity.
  - intros Hkey. rewrite (getAiClient_present w n Hkey). split; [|split].
    + intros e Hr. rewrite Hr. reflexivity.
    + intros resp Hr Ht. rewrite Hr. destruct (text resp) as [t|]; [|reflexivity].
      simpl in Ht. destruct (String.eqb t ""); [reflexivity|discriminate].
    + intros resp t e Hr Ht Hne Hp. rewrite Hr, Ht.
      apply String.eqb_neq in Hne. rewrite Hne, Hp. reflexivity.
Qed.

(** X21. With a credential and a reply whose text parses,
    [generateAcademicStrategy] returns the parsed analysis after one
    request. *)
Theorem generateAcademicStrategy_returns_the_parsed_reply (w : World) (n : nat)
    (resp : GenerateContentResponse) (t : string) (a : AIAnalysisResult) :
  truthy_string (API_KEY w) = true ->
  reply w n = Fulfilled resp -> text resp = Some t -> t <> ""%string ->
  JSON_parse_analysis t = Fulfilled a ->
  generateAcademicStrategy JSON_parse_analysis w n = (Fulfilled a, S n).
Proof.
  intros Hkey Hr Ht Hne Hp.
  unfold generateAcademicStrategy, bind, try_catch, generateContent, lift.
  rewrite (getAiClient_present w n Hkey), Hr, Ht.
  apply String.eqb_neq in Hne. rewrite Hne, Hp. reflexivity.
Qed.

Lemma strategy_with_key (w : World) (n : nat) :
  truthy_string (API_KEY w) = true ->
  exists r, generateAcademicStrategy JSON_parse_analysis w n = (Fulfilled r, S n).
Proof.
  intros Hkey. unfold generateAcademicStrategy, bind, try_catch, generateContent, lift.
  rewrite (getAiClient_present w n Hkey).
  destruct (reply w n) as [resp|e]; [|eexists; reflexivity].
  destruct (text resp) as [t|]; [|eexists; reflexivity].
  destruct (String.eqb t ""); [eexists; reflexivity|].
  destruct (JSON_parse_analysis t); eexists; reflexivity.
Qed.

Lemma strategy_without_key (w : World) (n : nat) :
  truthy_string (API_KEY w) = false ->
  generateAcademicStrategy JSON_parse_analysis w n = (Rejected (Error "API Key not found"), n).
Proof.
  intros Hkey. unfold generateAcademicStrategy, bind.
  rewrite (getAiClient_missing w n Hkey). reflexivity.
Qed.

(** X22. [handleGenerateStrategy] ends with status [complete] and an
    analysis exactly when a credential is present, and with status [error]
    and no analysis exactly when it is missing; it never touches the found
    resources. *)
Theorem handleGenerateStrategy_reports (w : World) (n : nat) (ui : Ui) :
  let ui' := handleGenerateStrategy JSON_parse_analysis w n ui in
  foundResources ui' = foundResources ui /\
  (status ui' = complete <-> truthy_string (API_KEY w) = true) /\
  (status ui' = error <-> truthy_string (API_KEY w) = false) /\
  (status ui' = complete ->
   errorMessage ui' = errorMessage ui /\ exists r, analysis ui' = Some r) /\
  (status ui' = error -> analysis ui' = None).
Proof.
  unfold handleGenerateStrategy.
  destruct (truthy_string (API_KEY w)) eqn:Hkey.
  - destruct (strategy_with_key w n Hkey) as [r Hr]. rewrite Hr. simpl.
    repeat split; try discriminate; try reflexivity; eauto.
  - rewrite (strategy_without_key w n Hkey). simpl.
    repeat split; try discriminate; try reflexivity; intros; discriminate.
Qed.

Lemma resources_with_key (w : World) (n : nat) :
  truthy_string (API_KEY w) = true ->
  exists rs, findStudyResources URL_hostname w n = (Fulfilled rs, S n) /\ List.length rs <= 5.
Proof.
  intros Hkey. unfold findStudyResources, bind, try_catch, generateContent.
  rewrite (getAiClient_present w n Hkey).
  destruct (reply w n) as [resp|e]; [|eexists; split; [reflexivity|simpl; lia]].
  destruct (groundingChunks resp) as [chunks|]; [|eexists; split; [reflexivity|simpl; lia]].
  pose proof (collectResources_counter URL_hostname chunks [] (S n)) as Hn.
  destruct (collectResources URL_hostname chunks [] (S n)) as [[rs|e] n']; simpl in Hn; subst n'.
  - eexists. split; [reflexivity|]. apply firstn_le_length.
  - eexists. split; [reflexivity|simpl; lia].
Qed.

(** X23. [handleFindResources] does nothing for a course without a title;
    otherwise it leaves at most 5 resources, ends [complete] exactly when
    a credential is present, and leaves no resource on [error]. *)
Theorem handleFindResources_reports (w : World) (n : nat) (course : Course) (ui : Ui) :
  let ui' := handleFindResources URL_hostname w n course ui in
  (c_title course = ""%string -> ui' = ui) /\
  (c_title course <> ""%string ->
   analysis ui' = analysis ui /\
   List.length (foundResources ui') <= 5 /\
   (status ui' = complete <-> truthy_string (API_KEY w) = true) /\
   (status ui' = error <->  truthy_string (API_KEY w) = false) /\
   (status ui' = error -> foundResources ui' = [])).
Proof.
  unfold handleFindResources. split.
  - intros ->. reflexivity.
  - intros Hne. apply String.eqb_neq in Hne. rewrite Hne.
    destruct (truthy_string (API_KEY w)) eqn:Hkey.
    + destruct (resources_with_key w n Hkey) as [rs [Hr Hlen]]. rewrite Hr. simpl.
      repeat split; try discriminate; try reflexivity; try exact Hlen; intros; discriminate.
    + assert (Hr : findStudyResources URL_hostname w n
                   = (Rejected (Error "API Key not found"), n)).
      { unfold findStudyResources, bind. rewrite (getAiClient_missing w n Hkey). reflexivity. }
      rewrite Hr. simpl.
      repeat split; try discriminate; try reflexivity; try lia; intros; discriminate.
Qed.

(** X24. Choosing no file changes nothing; choosing a file sets the status
    to scanning and clears the error message.  When the upload settles, the
    callback never changes the mode, the analysis or the found resources;
    it either sets the status to complete, leaves the error message alone
    and appends one semester with the courses [parseTranscriptImage]
    returned, at least one, and their GPA under the mode of the render the
    file was chosen in, whatever the mode is by then; or it leaves the
    state as it is and sets one of two error messages. *)
Theorem handleTranscriptUpload_outcomes (w : World) (result : option string)
    (now : nat -> nat) (nowId n : nat) (closureMode : CalculationMode)
    (st : AppState) (ui : Ui) :
  let st' := fst (onloadend JSON_parse_courses w result now nowId n closureMode st ui) in
  let ui' := snd (onloadend JSON_parse_courses w result now nowId n closureMode st ui) in
  handleTranscriptUpload false ui = ui /\
  handleTranscriptUpload true ui =
    {| status := scanning; errorMessage := None;
       analysis := analysis ui; foundResources := foundResources ui |} /\
  mode st' = mode st /\
  analysis ui' = analysis ui /\ foundResources ui' = foundResources ui /\
  ((status ui' = complete /\ errorMessage ui' = errorMessage ui /\
    exists courses,
      fst (parseTranscriptImage JSON_parse_courses w now n) = Fulfilled courses /\
      courses <> [] /\
      semesters st' =
        semesters st ++
        [ {| s_id := ("sem-import-" ++ show_nat nowId)%string;
             s_name := "Imported Transcript";
             s_courses := courses;
             s_gpa := calculateSemesterGPA closureMode courses |} ]) \/
   (status ui' = error /\ st' = st /\
    (errorMessage ui' = Some "Could not detect any courses. Please try a clearer image."%string \/
     errorMessage ui' = Some "Failed to process image. Ensure API Key is set."%string))).
Proof.
  unfold onloadend.
  split; [reflexivity|]. split; [reflexivity|].
  destruct result as [dataUrl|]; simpl.
  - destruct (fst (parseTranscriptImage JSON_parse_courses w now n)) as [cs|e]; simpl.
    + unfold importTranscript.
      destruct (Nat.ltb 0 (List.length cs)) eqn:Hlen; simpl.
      * repeat split. left. repeat split.
        exists cs. split; [reflexivity|]. split; [|reflexivity].
        intros ->. simpl in Hlen. discriminate.
      * repeat split. right. auto.
    + repeat split. right. auto.
  - repeat split. right. auto.
Qed.

End Calls.

Section Dedup.
Local Open Scope nat_scope.

Lemma filter_from_incl (A : Type) (p : A -> Z -> bool) (l : list A) (i : Z) (x : A) :
  In x (filter_from p l i) -> In x l.
Proof.
  revert i. induction l as [|y l IH]; intros i Hin; simpl in *; [exact Hin|].
  destruct (p y i); [destruct Hin as [->|Hin]|]; eauto.
Qed.

Lemma unique_suffix_distinct (full suf pre : list StudyResource) :
  full = pre ++ suf -> NoDup (map r_uri full) ->
  filter_from
    (fun v i => Z.eqb (findIndex (fun t => String.eqb (r_uri t) (r_uri v)) full) i)
    suf (Z.of_nat (List.length pre)) = suf.
Proof.
  revert pre. induction suf as [|v rest IH]; intros pre Hfull Hnd; [reflexivity|].
  simpl filter_from.
  assert (Hunseen : existsb (fun t => String.eqb (r_uri t) (r_uri v)) pre = false).
  { rewrite Hfull, map_app in Hnd. simpl in Hnd. apply NoDup_remove_2 in Hnd.
    destruct (existsb (fun t => String.eqb (r_uri t) (r_uri v)) pre) eqn:Hex; [|reflexivity].
    apply existsb_exists in Hex. destruct Hex as [t [Ht Heq]]. apply String.eqb_eq in Heq.
    exfalso. apply Hnd. apply in_or_app. left. rewrite <- Heq. apply in_map, Ht. }
  unfold findIndex at 1. rewrite Hfull at 1.
  rewrite (findIndex_from_skip _ pre (v :: rest) 0%Z Hunseen).
  simpl findIndex_from. rewrite String.eqb_refl, Z.eqb_refl. f_equal.
  assert (Hnext : full = (pre ++ [v]) ++ rest) by (rewrite <- app_assoc; exact Hfull).
  specialize (IH (pre ++ [v]) Hnext Hnd).
  rewrite length_app, Nat2Z.inj_add in IH. exact IH.
Qed.

(** X26. [uniqueResources] leaves a list with distinct uris as it is, is
    idempotent, returns only resources of its argument, and keeps every
    uri. *)
Theorem uniqueResources_fixes_distinct_lists (rs : list StudyResource) :
  (NoDup (map r_uri rs) -> uniqueResources rs = rs) /\
  uniqueResources (uniqueResources rs) = uniqueResources rs /\
  (forall r, In r (uniqueResources rs) -> In r rs) /\
  (forall r, In r rs -> In (r_uri r) (map r_uri (uniqueResources rs))).
Proof.
  assert (Hfix : forall l, NoDup (map r_uri l) -> uniqueResources l = l).
  { intros l Hnd. apply (@unique_suffix_distinct l l [] eq_refl Hnd). }
  split; [apply Hfix|]. split; [|split].
  - apply Hfix. rewrite uniqueResources_first_occurrences. apply first_occurrences_NoDup.
  - intros r Hin. apply (filter_from_incl _ _ _ _ Hin).
  - intros r Hin. rewrite uniqueResources_first_occurrences.
    apply in_map with (f := r_uri) in Hin. revert Hin. generalize (map r_uri rs) (r_uri r).
    induction l as [|u l IH]; intros x Hin; [destruct Hin|]. simpl.
    destruct (String.eqb x u) eqn:Hxu.
    + apply String.eqb_eq in Hxu. left. congruence.
    + destruct Hin as [->|Hin]; [rewrite String.eqb_refl in Hxu; discriminate|].
      right. apply filter_In. split; [apply IH, Hin|]. rewrite Hxu. reflexivity.
Qed.

End Dedup.

Section FromChunks.
Variable URL_hostname : string -> Settled string.
Local Open Scope nat_scope.

Lemma collectResources_from_chunks (chunks : list GroundingChunk)
    (acc rs : list StudyResource) (n n' : nat) :
  collectResources URL_hostname chunks acc n = (Fulfilled rs, n') ->
  forall r, In r rs ->
    In r acc \/ exists chunk, In chunk chunks /\ resource_of_chunk URL_hostname chunk r.
Proof.
  revert acc. induction chunks as [|chunk rest IH]; intros acc Hrun r Hin; simpl in Hrun.
  - unfold ret in Hrun. injection Hrun as <- _. left. exact Hin.
  - unfold bind, pushChunk in Hrun.
    assert (Hskip : forall acc', collectResources URL_hostname rest acc' n = (Fulfilled rs, n') ->
              acc' = acc ->
              In r acc \/ exists c, In c (chunk :: rest) /\ resource_of_chunk URL_hostname c r).
    { intros acc' Hr ->. destruct (IH acc Hr r Hin) as [H|[c [Hc Hres]]]; [left; exact H|].
      right. exists c. split; [right; exact Hc|exact Hres]. }
    destruct (web chunk) as [[[uri|] [title|]]|] eqn:Hweb; simpl in Hrun;
      try (apply (Hskip acc Hrun eq_refl)).
    destruct (negb (String.eqb uri "") && negb (String.eqb title "")) eqn:Hvalid; simpl in Hrun;
      [|apply (Hskip acc Hrun eq_refl)].
    unfold bind, lift in Hrun. destruct (URL_hostname uri) as [h|e] eqn:Hh; simpl in Hrun;
      [|discriminate].
    destruct (IH _ Hrun r Hin) as [H|[c [Hc Hres]]].
    + apply in_app_or in H. destruct H as [H|[<-|[]]]; [left; exact H|].
      right. exists chunk. split; [left; reflexivity|].
      apply andb_true_iff in Hvalid. destruct Hvalid as [Hu Ht].
      apply negb_true_iff in Hu, Ht. apply String.eqb_neq in Hu, Ht.
      unfold resource_of_chunk. simpl. repeat split; try assumption.
      exists h. split; [exact Hh|reflexivity].
    + right. exists c. split; [right; exact Hc|exact Hres].
Qed.

(** X25. Every resource [findStudyResources] returns carries the uri and
    the title of a chunk of the reply, both non-empty, and the host name of
    the uri without its first "www." as source. *)
Theorem findStudyResources_come_from_chunks (w : World) (n : nat)
    (rs : list StudyResource) (r : StudyResource) :
  fst (findStudyResources URL_hostname w n) = Fulfilled rs -> In r rs ->
  exists resp chunks chunk,
    reply w n = Fulfilled resp /\ groundingChunks resp = Some chunks /\
    In chunk chunks /\ resource_of_chunk URL_hostname chunk r.
Proof.
  unfold findStudyResources, bind, try_catch, generateContent, getAiClient.
  destruct (negb (truthy_string (API_KEY w))); simpl; [discriminate|].
  destruct (reply w n) as [resp|e] eqn:Hr; simpl;
    [|intros H; injection H as <-; intros []].
  destruct (groundingChunks resp) as [chunks|] eqn:Hc; simpl;
    [|intros H; injection H as <-; intros []].
  destruct (collectResources URL_hostname chunks [] (S n)) as [[all|e] n'] eqn:Hrun;
    cbn -[firstn uniqueResources]; [|intros H; injection H as <-; intros []].
  intros H Hin. injection H as <-.
  change (In r (firstn 5 (uniqueResources all))) in Hin.
  assert (Hall : In r all).
  { assert (Hu : In r (uniqueResources all)).
    { rewrite <- (firstn_skipn 5 (uniqueResources all)). apply in_or_app. left. exact Hin. }
    unfold uniqueResources, filter_indexed in Hu. apply (filter_from_incl _ _ _ _ Hu). }
  destruct (@collectResources_from_chunks chunks [] all (S n) n' Hrun r Hall)
    as [[]|[chunk [Hch Hres]]].
  exists resp, chunks, chunk. auto.
Qed.

End FromChunks.

Lemma substring_all (s : string) : String.substring 0 (String.length s) s = s.
Proof. induction s as [|c s IH]; simpl; [|rewrite IH]; reflexivity. Qed.

Local Open Scope string_scope.

Lemma append_assoc3 (a b c : string) : (a ++ b) ++ c = a ++ (b ++ c).
Proof. induction a as [|x a IH]; simpl; [|rewrite IH]; reflexivity. Qed.

Lemma length_app_string (a b : string) :
  String.length (a ++ b) = (String.length a + String.length b)%nat.
Proof. induction a as [|x a IH]; simpl; [|rewrite IH]; reflexivity. Qed.

Lemma prefix_of_longer (p s t : string) :
  (String.length p <= String.length s)%nat -> String.prefix p (s ++ t) = String.prefix p s.
Proof.
  revert s. induction p as [|a p IH]; intros s Hlen.
  - destruct s; destruct t; reflexivity.
  - destruct s as [|b s]; simpl in Hlen; [lia|].
    simpl. destruct (ascii_dec a b); [|reflexivity]. apply IH. lia.
Qed.

Lemma prefix_split (p s : string) :
  String.prefix p s = true -> exists post, s = p ++ post.
Proof.
  revert s. induction p as [|a p IH]; intros s H.
  - exists s. reflexivity.
  - destruct s as [|b s]; [discriminate|]. simpl in H.
    destruct (ascii_dec a b) as [->|]; [|discriminate].
    destruct (IH s H) as [post ->]. exists post. reflexivity.
Qed.

(** Whether "www." starts a string that has a character before the "www"
    is decided before the dot. *)
Lemma www_not_at_head (c : ascii) (pre post : string) :
  String.prefix "www." (String c (pre ++ "www." ++ post)) =
  String.prefix "www." (String c (pre ++ "www")).
Proof.
  change (String c (pre ++ "www." ++ post)) with (String c pre ++ ("www" ++ "." ++ post)).
  rewrite <- append_assoc3.
  apply prefix_of_longer. simpl. rewrite length_app_string. simpl. lia.
Qed.

(** [replace("www.", "")] leaves a host name without "www." as it is. *)
Lemma no_www_kept (hostname : string) :
  occursIn "www." hostname = false -> replace_first "www." "" hostname = hostname.
Proof.
  induction hostname as [|c h IH]; intros Hno; [reflexivity|].
  unfold occursIn in Hno. fold occursIn in Hno.
  unfold replace_first. fold replace_first.
  destruct (String.prefix "www." (String c h)); [discriminate|].
  rewrite IH; [reflexivity|exact Hno].
Qed.

(** It removes the "www." that no other "www." starts before. *)
Lemma first_www_removed (pre post : string) :
  occursIn "www." (pre ++ "www") = false ->
  replace_first "www." "" (pre ++ "www." ++ post) = pre ++ post.
Proof.
  induction pre as [|c pre IH]; intros Hno.
  - destruct post as [|c h]; [reflexivity|]. simpl. f_equal. apply substring_all.
  - change (String c pre ++ "www") with (String c (pre ++ "www")) in Hno.
    unfold occursIn in Hno. fold occursIn in Hno.
    change (String c pre ++ "www." ++ post) with (String c (pre ++ "www." ++ post)).
    unfold replace_first. fold replace_first.
    rewrite www_not_at_head.
    destruct (String.prefix "www." (String c (pre ++ "www"))); [discriminate|].
    rewrite (IH Hno). reflexivity.
Qed.

(** A host name in which "www." occurs has a first occurrence of it. *)
Lemma first_www_found (hostname : string) :
  occursIn "www." hostname = true ->
  exists pre post,
    hostname = pre ++ "www." ++ post /\ occursIn "www." (pre ++ "www") = false.
Proof.
  induction hostname as [|c h IH]; intros Hocc; [discriminate|].
  unfold occursIn in Hocc. fold occursIn in Hocc.
  destruct (String.prefix "www." (String c h)) eqn:Hp.
  - destruct (prefix_split _ _ Hp) as [post Hpost].
    exists "", post. split; [exact Hpost|reflexivity].
  - destruct (IH Hocc) as [pre [post [Hh Hno]]].
    exists (String c pre), post. split; [rewrite Hh; reflexivity|].
    change (String c pre ++ "www") with (String c (pre ++ "www")).
    unfold occursIn. fold occursIn.
    rewrite Hh, www_not_at_head in Hp. rewrite Hp. exact Hno.
Qed.

(** X27. For a chunk with a uri and a title, both non-empty, whose uri is a
    URL, the body of [chunks.forEach] pushes one resource with that title
    and uri.  Its source is the host name when "www." does not occur in
    it; otherwise "www." has a first occurrence in the host name, at the
    start or further on, and the source is the host name with that
    occurrence removed. *)
Theorem pushChunk_source (URL_hostname : string -> Settled string)
    (resources : list StudyResource) (uri title hostname : string) (n : nat) :
  uri <> "" -> title <> "" -> URL_hostname uri = Fulfilled hostname ->
  exists source,
    pushChunk URL_hostname resources
      {| web := Some {| w_uri := Some uri; w_title := Some title |} |} n
    = (Fulfilled (resources ++ [ {| r_title := title; r_uri := uri; r_source := source |} ])%list,
       n) /\
    (occursIn "www." hostname = false -> source = hostname) /\
    (occursIn "www." hostname = true ->
     exists pre post,
       hostname = pre ++ "www." ++ post /\ occursIn "www." (pre ++ "www") = false) /\
    (forall pre post,
       hostname = pre ++ "www." ++ post -> occursIn "www." (pre ++ "www") = false ->
       source = pre ++ post).
Proof.
  intros Huri Htitle Hhost.
  apply String.eqb_neq in Huri, Htitle.
  exists (replace_first "www." "" hostname). split; [|split; [|split]].
  - unfold pushChunk, bind, lift, ret. cbn [web w_uri w_title].
    rewrite Huri, Htitle, Hhost. reflexivity.
  - apply no_www_kept.
  - apply first_www_found.
  - intros pre post -> Hno. apply first_www_removed, Hno.
Qed.

(** * The further results at the sample data *)

Lemma getPoint_listed_witness :
  In {| g_grade := "B+"; g_point := 33 # 10 |} (scaleOf (N := exact) Standard4) /\
  getPoint (N := exact) "B+" Standard4 = 33 # 10.
Proof.
  assert (H : In {| g_grade := "B+"; g_point := 33 # 10 |} (scaleOf (N := exact) Standard4)).
  { right. right. left. reflexivity. }
  split; [exact H|].
  exact (@getPoint_listed exact Standard4 {| g_grade := "B+"; g_point := 33 # 10 |} H).
Defined.

Lemma cgpa_depends_on_courses_only_witness :
  allCourses sampleSemesters = allCourses sampleMerged /\
  cgpa sampleSemesters Standard4 = cgpa sampleMerged Standard4.
Proof.
  assert (H : allCourses sampleSemesters = allCourses sampleMerged) by reflexivity.
  split; [exact H|].
  exact (@cgpa_depends_on_courses_only exact sampleSemesters sampleMerged Standard4 H).
Defined.

Lemma chartData_entries_witness :
  exists p,
    nth_error (chartData sampleSemesters Standard4) 1 = Some p /\
    cp_name p = "Semester 2" /\ cp_semGPA p = 37 # 10 /\
    cp_cgpa p = cgpa (firstn 2 sampleSemesters) Standard4.
Proof.
  exact (@chartData_entries exact sampleSemesters Standard4 1
           {| s_id := "sem-2"; s_name := "Semester 2";
              s_courses := [ sampleCourse "3" "ENG101" "A-" 3 ]; s_gpa := 37 # 10 |}
           eq_refl).
Defined.

Lemma gpa_recomputed_when_courses_change_witness :
  exists sem',
    nth_error (semesters (handleUpdateCourses "sem-1" (allCourses sampleSemesters)
                            (initialState (N := exact)))) 0 = Some sem' /\
    s_id sem' = "sem-1" /\ s_name sem' = "Semester 1" /\
    s_courses sem' = allCourses sampleSemesters /\
    s_gpa sem' = calculateSemesterGPA Standard4 (allCourses sampleSemesters).
Proof.
  destruct (proj1 (@gpa_recomputed_when_courses_change exact) "sem-1"
              (allCourses sampleSemesters) initialState 0%nat
              (@Build_Semester exact "sem-1" "Semester 1" [] 0)
              eq_refl)
    as [sem' [Hnth [Hid [Hname [Hmatch _]]]]].
  exists sem'. split; [exact Hnth|]. split; [exact Hid|]. split; [exact Hname|].
  exact (Hmatch eq_refl).
Defined.

Lemma gpa_fresh_while_scale_is_kept_witness :
  forallb keepsMode negativeCreditsSession = true /\
  mode (run negativeCreditsSession) = Standard4 /\
  forall sem, In sem (semesters (run negativeCreditsSession)) -> gpa_fresh Standard4 sem.
Proof.
  split; [reflexivity|].
  exact (@gpa_fresh_while_scale_is_kept exact negativeCreditsSession eq_refl).
Defined.

Lemma handleUpdateCourses_unknown_semester_witness :
  handleUpdateCourses "sem-9" (allCourses sampleSemesters) (initialState (N := exact))
  = initialState.
Proof.
  apply (@handleUpdateCourses_unknown_semester exact).
  intros sem Hin. simpl in Hin. destruct Hin as [<-|[]]. simpl. discriminate.
Defined.

Lemma handleUpdateCourses_replaces_one_witness :
  semesters (handleUpdateCourses "sem-1" (allCourses sampleSemesters) (initialState (N := exact)))
  = [ {| s_id := "sem-1"; s_name := "Semester 1"; s_courses := allCourses sampleSemesters;
         s_gpa := calculateSemesterGPA Standard4 (allCourses sampleSemesters) |} ].
Proof.
  refine (@handleUpdateCourses_replaces_one exact initialState 0%nat
            (@Build_Semester exact "sem-1" "Semester 1" [] 0)
            (allCourses sampleSemesters) _ eq_refl).
  simpl. constructor; [intros []|constructor].
Defined.

Lemma addSemester_then_removeSemester_witness :
  removeSemester "sem-7" (addSemester 7 (initialState (N := exact))) = initialState.
Proof.
  apply (@addSemester_then_removeSemester exact 7%nat initialState).
  intros sem Hin. simpl in Hin. destruct Hin as [<-|[]]. simpl. discriminate.
Defined.

Lemma semester_ids_unique_witness :
  NoDup (map (@s_id exact) (semesters (run scaleSwitchSession))).
Proof.
  apply (@semester_ids_unique exact scaleSwitchSession).
  - simpl. constructor; [intros []|constructor].
  - simpl. intros [H|[]]. discriminate.
Defined.

Lemma handleChange_keeps_the_list_shape_witness :
  handleChange (allCourses sampleSemesters) "9" (ChangeGrade "F") = allCourses sampleSemesters.
Proof.
  apply (@handleChange_keeps_the_list_shape exact (allCourses sampleSemesters) "9"
           (ChangeGrade "F")).
  intros c Hin. simpl in Hin. destruct Hin as [<-|[<-|[<-|[]]]]; simpl; discriminate.
Defined.

Lemma handleChange_last_write_wins_witness :
  handleChange (handleChange (allCourses sampleSemesters) "2" (ChangeCredits (2 : Q)))
    "2" (ChangeCredits (5 : Q))
  = handleChange (allCourses sampleSemesters) "2" (ChangeCredits (5 : Q)).
Proof.
  exact (@handleChange_last_write_wins exact (allCourses sampleSemesters) "2"
           (ChangeCredits (2 : Q)) (ChangeCredits (5 : Q)) eq_refl).
Defined.

Lemma handleAddCourse_then_handleRemove_witness :
  handleAddCourse (scaleOf Standard5) (allCourses sampleSemesters) 1
  = Some (allCourses sampleSemesters ++
          [ {| c_id := "new-1"; c_code := ""; c_title := ""; c_credits := 3 : Q;
               c_grade := "A" |} ])%list /\
  handleRemove
    (allCourses sampleSemesters ++
     [ {| c_id := "new-1"; c_code := ""; c_title := ""; c_credits := 3 : Q;
          c_grade := "A" |} ])%list
    "new-1" = allCourses sampleSemesters.
Proof.
  destruct (@handleAddCourse_then_handleRemove exact Standard5 (allCourses sampleSemesters) 1%nat)
    as [Hadd Hremove].
  split; [exact Hadd|]. apply Hremove.
  intros c Hin. simpl in Hin. destruct Hin as [<-|[<-|[<-|[]]]]; simpl; discriminate.
Defined.

Lemma parseTranscriptImage_outcomes_witness :
  parseTranscriptImage sampleParse offline (fun i => i) 0%nat
    = (Rejected (Error "API Key not found"), 0%nat) /\
  parseTranscriptImage sampleParseReject online (fun i => i) 0%nat
    = (Rejected (Error "Unexpected token"), 1%nat).
Proof.
  split.
  - exact (proj1 (@parseTranscriptImage_outcomes exact sampleParse offline (fun i => i) 0%nat)
             eq_refl).
  - refine (proj2 (proj2 (proj2 (@parseTranscriptImage_outcomes exact sampleParseReject online
                                   (fun i => i) 0%nat) eq_refl))
              sampleResponse "[ two courses ]" (Error "Unexpected token")
              eq_refl eq_refl _ eq_refl).
    discriminate.
Defined.

Lemma generateAcademicStrategy_returns_the_parsed_reply_witness :
  generateAcademicStrategy sampleParseAnalysisOk online 0%nat = (Fulfilled sampleAnalysis, 1%nat).
Proof.
  refine (@generateAcademicStrategy_returns_the_parsed_reply sampleParseAnalysisOk online 0%nat
            sampleResponse "[ two courses ]" sampleAnalysis eq_refl eq_refl eq_refl _ eq_refl).
  discriminate.
Defined.

Lemma handleGenerateStrategy_reports_witness :
  truthy_string (API_KEY offline) = false /\
  status (handleGenerateStrategy sampleParseAnalysis offline 0%nat sampleUi) = error /\
  analysis (handleGenerateStrategy sampleParseAnalysis offline 0%nat sampleUi) = None.
Proof.
  split; [reflexivity|].
  destruct (handleGenerateStrategy_reports sampleParseAnalysis offline 0%nat sampleUi)
    as [_ [_ [Herr [_ Hnone]]]].
  assert (Hs : status (handleGenerateStrategy sampleParseAnalysis offline 0%nat sampleUi) = error)
    by (apply Herr; reflexivity).
  split; [exact Hs|exact (Hnone Hs)].
Defined.

Lemma handleFindResources_reports_witness :
  c_title (sampleCourse "1" "CS101" "A" 4) <> "" /\
  (List.length (foundResources
                  (handleFindResources sampleHostname online 0%nat
                     (sampleCourse "1" "CS101" "A" 4) sampleUi)) <= 5)%nat /\
  status (handleFindResources sampleHostname online 0%nat
            (sampleCourse "1" "CS101" "A" 4) sampleUi) = complete.
Proof.
  assert (Ht : c_title (sampleCourse "1" "CS101" "A" 4) <> "") by (simpl; discriminate).
  split; [exact Ht|].
  destruct (proj2 (@handleFindResources_reports exact sampleHostname online 0%nat
                     (sampleCourse "1" "CS101" "A" 4) sampleUi) Ht)
    as [_ [Hlen [Hcomplete _]]].
  split; [exact Hlen|]. apply Hcomplete. reflexivity.
Defined.

Lemma findStudyResources_come_from_chunks_witness :
  exists resp chunks chunk,
    reply online 0%nat = Fulfilled resp /\ groundingChunks resp = Some chunks /\
    In chunk chunks /\
    resource_of_chunk sampleHostname chunk
      {| r_title := "Lectures"; r_uri := "https://b.org/intro"; r_source := "b.org" |}.
Proof.
  apply (@findStudyResources_come_from_chunks sampleHostname online 0%nat sampleResources).
  - reflexivity.
  - right. left. reflexivity.
Defined.

Lemma uniqueResources_fixes_distinct_lists_witness :
  NoDup (map r_uri sampleResources) /\ uniqueResources sampleResources = sampleResources.
Proof.
  assert (H : NoDup (map r_uri sampleResources)).
  { simpl. constructor; [intros [H|[]]; discriminate|].
    constructor; [intros []|constructor]. }
  split; [exact H|]. exact (proj1 (uniqueResources_fixes_distinct_lists sampleResources) H).
Defined.

Lemma pushChunk_source_witness :
  exists source,
    pushChunk sampleHostname [] (sampleChunk "https://www.a.edu/cs101" "Notes") 0%nat
    = (Fulfilled [ {| r_title := "Notes"; r_uri := "https://www.a.edu/cs101";
                      r_source := source |} ], 0%nat) /\
    source = "a.edu".
Proof.
  destruct (@pushChunk_source sampleHostname [] "https://www.a.edu/cs101" "Notes"
              "www.a.edu" 0%nat ltac:(discriminate) ltac:(discriminate) eq_refl)
    as [source [Hpush [_ [_ Hfirst]]]].
  exists source. split; [exact Hpush|].
  exact (Hfirst "" "a.edu" eq_refl eq_refl).
Defined.
